(** * A shallow embedding of the Next.js + Node.js + Apollo GraphQL starter

    The repository is glue code over third-party frameworks.  The
    development below embeds the pieces of it that carry behaviour of
    their own:

    - the backend: the [User] model, the request context and its
      middleware, the [tryCatchAsync] error policy, the read-replica
      routing of the Prisma client, the single protected resolver
      [UserResolver.user] and the batch function of [userLoader];
    - the frontend: the [proxy] selection on the Clerk publishable key,
      the [config.matcher] patterns as Next.js applies them and the
      [Providers] composition.

    Third-party behaviour (Clerk, Next.js, Apollo, React) enters as the
    fields of interface classes, never as an assumption of the file. *)

From stdpp Require Import gmap strings list.
From Stdlib Require Import ZArith String Ascii Lia.

Local Open Scope string_scope.
Local Open Scope Z_scope.
Local Open Scope list_scope.

(** ** JavaScript values the code branches on *)

Module JS.

(** [process.env]: a dictionary from variable names to strings; a
    variable that is not set reads as [undefined]. *)
Definition Env : Type := gmap string string.

(** Truthiness of a value of type [string | undefined], as tested by
    [c ? a : b] and by [!c]: [undefined] and the empty string are falsy,
    every other string is truthy. *)
Definition truthy (v : option string) : bool :=
  match v with
  | None => false
  | Some EmptyString => false
  | Some (String _ _) => true
  end.

(** A value thrown by [throw]: a [GraphQLError] or some other [Error],
    each carrying its [message]. *)
Inductive Error : Type :=
| GraphQLError (message : string)
| OtherError (name message : string).

Definition message (e : Error) : string :=
  match e with
  | GraphQLError m => m
  | OtherError _ m => m
  end.

Definition isGraphQLError (e : Error) : bool :=
  match e with
  | GraphQLError _ => true
  | OtherError _ _ => false
  end.

(** How a promise settles. *)
Inductive Settled (A : Type) : Type :=
| Fulfilled (value : A)
| Rejected (reason : Error).
Arguments Fulfilled {A} value.
Arguments Rejected {A} reason.

End JS.

(** ** The Prisma schema and client *)

Module Prisma.

(** [enum UserRole { ADMIN USER }] *)
Inductive UserRole : Type := ADMIN | USER.

(** [model User], with [DateTime] columns as integer timestamps. *)
Record User : Type := mkUser {
  id : Z;
  auth_id : string;
  email : string;
  name : option string;
  phone : option string;
  image : option string;
  role : UserRole;
  subscribed_to_newsletter : bool;
  newsletter_subscribed_at : option Z;
  created_at : Z;
  updated_at : Z
}.

(** The two kinds of operation the routing distinguishes. *)
Inductive OpType : Type := ReadOp | WriteOp.

(** The two pre-configured connection pools. *)
Inductive Pool : Type := Primary | Replica.

(** Operations of the [user] delegate.  [FindUnique] and [FindMany] are
    the ones the sources call; no write is issued by the sources, and
    [Create], [Update] and [Delete] stand for the writes the routing
    split speaks of. *)
Inductive DbOp : Type :=
| FindUnique (where_id : Z)
| FindMany (where_id_in : list Z)
| Create (data : User)
| Update (where_id : Z) (data : User)
| Delete (where_id : Z).

Definition op_type (op : DbOp) : OpType :=
  match op with
  | FindUnique _ | FindMany _ => ReadOp
  | Create _ | Update _ _ | Delete _ => WriteOp
  end.

(** A client is characterised here by the pool it sends each kind of
    operation to. *)
Record PrismaClient : Type := { pool_for : OpType -> Pool }.

(** A client without the read-replica extension has one pool only. *)
Definition base_client : PrismaClient := {| pool_for := fun _ => Primary |}.

(** Modelled from the spec: [lib/prisma.ts], the client extended with
    [@prisma/extension-read-replicas], is not among the sources.  The
    routing split directs reads to replicas and writes to a primary, and
    picks the pool from the operation type alone. *)
Definition prisma : PrismaClient :=
  {| pool_for := fun t => match t with ReadOp => Replica | WriteOp => Primary end |}.

(** The database as the computation sees it: the rows of [User] and the
    operations issued so far, each with the pool that served it. *)
Record World : Type := mkWorld {
  users : list User;
  trace : list (Pool * DbOp)
}.

(** An [async] computation: it runs against the world and settles. *)
Definition Async (A : Type) : Type := World -> JS.Settled A * World.

Definition ret {A} (a : A) : Async A := fun w => (JS.Fulfilled a, w).

Definition throw {A} (e : JS.Error) : Async A := fun w => (JS.Rejected e, w).

(** [await m] followed by the rest of the function body. *)
Definition bind {A B} (m : Async A) (k : A -> Async B) : Async B :=
  fun w =>
    match m w with
    | (JS.Fulfilled a, w') => k a w'
    | (JS.Rejected e, w') => (JS.Rejected e, w')
    end.

(** [try { await m } catch (e) { handler }] *)
Definition try_catch {A} (m : Async A) (handler : JS.Error -> Async A) : Async A :=
  fun w =>
    match m w with
    | (JS.Fulfilled a, w') => (JS.Fulfilled a, w')
    | (JS.Rejected e, w') => handler e w'
    end.

(** Sending one operation through a client records it against the pool
    the client picks for its type. *)
Definition issue (client : PrismaClient) (op : DbOp) : Async unit :=
  fun w =>
    (JS.Fulfilled tt,
     {| users := users w;
        trace := trace w ++ [(pool_for client (op_type op), op)] |}).

(** The error Prisma raises, before any query is sent, when the unique
    filter of [findUnique] carries no value. *)
Definition PrismaClientValidationError : JS.Error :=
  JS.OtherError "PrismaClientValidationError"
    "Argument `where` needs at least one of `id`, `auth_id` or `email` arguments.".

(** [id Int]: the column holds signed 32-bit integers. *)
Definition int4 (k : Z) : bool := (-2147483648 <=? k) && (k <=? 2147483647).

(** The error of a query on [user] whose integer argument does not fit
    the column; the message names the action. *)
Definition ValueOutOfRange (action : string) : JS.Error :=
  JS.OtherError "PrismaClientKnownRequestError"
    (String.append "Invalid `prisma.user."
       (String.append action "()` invocation: Value out of range for the type")).

(** [client.user.findUnique({ where: { id } })]: a keyed lookup on the
    primary key, resolving to the row or to [null]; a key outside the
    range of the column is refused with a range error. *)
Definition findUnique (client : PrismaClient) (where_id : option Z)
  : Async (option User) :=
  match where_id with
  | None => throw PrismaClientValidationError
  | Some k =>
      bind (issue client (FindUnique k))
           (fun _ w =>
              if int4 k
              then (JS.Fulfilled (find (fun u => id u =? k) (users w)), w)
              else (JS.Rejected (ValueOutOfRange "findUnique"), w))
  end.

End Prisma.

Declare Scope async_scope.
Delimit Scope async_scope with async.
Notation "'let*' x ':=' m 'in' k" := (Prisma.bind m (fun x => k))
  (at level 10, x name, m at level 100, k at level 200) : async_scope.

(** ** The backend: context, middleware, error policy, resolver *)

Module Backend.
Import JS Prisma.
Local Open Scope async_scope.

(** [environment?: "development" | "production" | "local"] *)
Inductive Environment : Type := development | production | local.

(** [interface CustomJwtSessionClaims] of [types/global.d.ts]; every
    field is optional. *)
Record CustomJwtSessionClaims : Type := {
  dbUserId : option Z;
  environment : option Environment;
  role : option UserRole
}.

(** The GraphQL context, as the resolver uses it: [ctx.prisma] and the
    optional [ctx.user]. *)
Record Context : Type := {
  prisma : PrismaClient;
  user : option CustomJwtSessionClaims
}.

(** [ctx.user?.dbUserId] *)
Definition ctx_dbUserId (ctx : Context) : option Z :=
  match user ctx with
  | None => None
  | Some claims => dbUserId claims
  end.

(** The Clerk SDK on the server: verifying the token of a request
    yields the session claims, or nothing when there is no valid
    session. *)
Class ClerkBackend (Request : Type) : Type := {
  verifyToken : Request -> option CustomJwtSessionClaims
}.

(** The [@authRequired()] decorator of [middlewares/auth.middleware.ts]
    is not among the sources: what it accepts and what it throws
    otherwise are taken as parameters. *)
Class AuthGuard : Type := {
  authenticated : Context -> bool;
  unauthenticated : JS.Error
}.

Definition authRequired `{AuthGuard} {A} (method : Context -> Async A)
  : Context -> Async A :=
  fun ctx => if authenticated ctx then method ctx else throw unauthenticated.

(** Modelled from the spec: [utils/trycatch.ts] is not among the
    sources.  The failure-handling policy is to catch and convert to a
    GraphQL error; the thrown error becomes a [GraphQLError] with the
    original message. *)
Definition tryCatchAsync {A} (fn : unit -> Async A) : Async A :=
  try_catch (fn tt) (fun e => throw (GraphQLError (message e))).

(** Modelled from the spec: [middlewares/auth.middleware.ts] is not
    among the sources.  The middleware (a) calls the external SDK to
    verify the signed token, (b) does a keyed database lookup that maps
    the token to a local user record, the [dbUserId] claim being the key,
    and (c) attaches the role of that record and the claims to the
    per-request context, next to the Prisma client.  Where there is no
    valid session, no [dbUserId] claim or no local record, [ctx.user]
    stays undefined. *)
Definition authMiddleWare {Request} `{ClerkBackend Request} (req : Request)
  : Async Context :=
  match verifyToken req with
  | None => ret {| prisma := Prisma.prisma; user := None |}
  | Some claims =>
      match dbUserId claims with
      | None => ret {| prisma := Prisma.prisma; user := None |}
      | Some key =>
          let* record := findUnique Prisma.prisma (Some key) in
          match record with
          | None => ret {| prisma := Prisma.prisma; user := None |}
          | Some u =>
              ret {| prisma := Prisma.prisma;
                     user := Some {| dbUserId := Some (Prisma.id u);
                                     environment := environment claims;
                                     role := Some (Prisma.role u) |} |}
          end
      end
  end.

(** The context factory handed to [expressMiddleware]:
    [context: async ({ req, res }) => ({ ...await authMiddleWare(req, res), ... })].
    The object the middleware resolves to is spread into the context; the
    [loaders] of the DataLoader example read nothing the resolver uses and
    are left out. *)
Definition context {Request} `{ClerkBackend Request} (req : Request)
  : Async Context :=
  let* auth := authMiddleWare req in
  ret {| prisma := prisma auth; user := user auth |}.

(** One GraphQL request: the context is built first, the resolver of the
    requested field runs on it afterwards. *)
Definition handle_request {Request} `{ClerkBackend Request} {A}
    (resolver : Context -> Async A) (req : Request) : Async A :=
  let* ctx := context req in
  resolver ctx.

Module UserResolver.

(** The body of the [user] method. *)
Definition user_method (ctx : Context) : Async User :=
  tryCatchAsync (fun _ =>
    let* user := findUnique (prisma ctx) (ctx_dbUserId ctx) in
    match user with
    | None => throw (GraphQLError "User not found")
    | Some user => ret user
    end).

(** [@Query(() => UserResponse) @authRequired() async user(@Ctx() ctx)] *)
Definition user `{AuthGuard} : Context -> Async User :=
  authRequired user_method.

End UserResolver.

(** GraphQL values of the fields of [UserResponse]. *)
Inductive Value : Type :=
| VInt (n : Z)
| VString (s : string)
| VRole (r : UserRole)
| VNull.

Definition nullable (v : option string) : Value :=
  match v with
  | None => VNull
  | Some s => VString s
  end.

(** [@ObjectType() class UserResponse]: the four fields it declares,
    [id: Int], [email: String], [name: String] (nullable) and
    [role: UserRole]. *)
Definition UserResponse : list string := ["id"; "email"; "name"; "role"].

(** The value of a declared field, read off the object the resolver
    returned; other names are no fields of the type. *)
Definition field_value (u : User) (field : string) : option Value :=
  if String.eqb field "id" then Some (VInt (Prisma.id u))
  else if String.eqb field "email" then Some (VString (Prisma.email u))
  else if String.eqb field "name" then Some (nullable (Prisma.name u))
  else if String.eqb field "role" then Some (VRole (Prisma.role u))
  else None.

(** The selection set of [query User { user { ... } }] in [GET_USER]. *)
Definition GET_USER : list string :=
  ["id"; "name"; "email"; "phone"; "role"; "auth_id"; "image";
   "subscribed_to_newsletter"].

(** What a document gets back: a validation error naming the field the
    type does not have, or the outcome of the execution. *)
Inductive Response : Type :=
| Invalid (field : string)
| Executed (outcome : Settled (list (string * Value))).

(** The first selected field that [UserResponse] does not declare. *)
Definition undeclared (selection : list string) : option string :=
  find (fun f => negb (existsb (String.eqb f) UserResponse)) selection.

Definition read_fields (u : User) (selection : list string) : list (string * Value) :=
  flat_map (fun f => match field_value u f with
                     | Some v => [(f, v)]
                     | None => []
                     end) selection.

(** Executing [query { user { selection } }] on a context: the document
    is validated against the schema first; a valid document runs the
    [user] resolver once and reads the selected fields off its result. *)
Definition execute `{AuthGuard} (selection : list string) (ctx : Context)
  : World -> Response * World :=
  fun w =>
    match undeclared selection with
    | Some field => (Invalid field, w)
    | None =>
        match UserResolver.user ctx w with
        | (Fulfilled u, w') => (Executed (Fulfilled (read_fields u selection)), w')
        | (Rejected e, w') => (Executed (Rejected e), w')
        end
    end.

Definition execute_GET_USER `{AuthGuard} (ctx : Context)
  : World -> Response * World :=
  execute GET_USER ctx.

(** *** Vocabulary of the statements *)

(** The world after one keyed lookup through [client]: the rows are
    untouched and the trace has one more read. *)
Definition after_lookup (client : PrismaClient) (key : Z) (w : World) : World :=
  {| users := users w;
     trace := trace w ++ [(pool_for client ReadOp, FindUnique key)] |}.


End Backend.

(** ** Regular expressions, as far as the matcher patterns use them *)

Module RegExp.

(** Character classes under a star: [.] and [[^c]]. *)
Inductive cls : Type :=
| Dot
| Except (c : ascii).

(** [.] matches any character except a line terminator. *)
Definition line_terminator (a : ascii) : bool :=
  Ascii.eqb a "010" || Ascii.eqb a "013".

Definition cls_mem (c : cls) (a : ascii) : bool :=
  match c with
  | Dot => negb (line_terminator a)
  | Except x => negb (Ascii.eqb a x)
  end.

Inductive re : Type :=
| Lit (s : string)      (* literal characters *)
| Star (c : cls)        (* c* *)
| Plus (c : cls)        (* c{1,} *)
| AnyOf (chars : string) (* [chars], one character *)
| Seq (a b : re)        (* ab *)
| Alt (a b : re)        (* a|b *)
| Opt (a : re)          (* a? *)
| NegAhead (a : re)     (* (?!a) *)
| Group (a : re)        (* (a) *)
| NonCapture (a : re).  (* (?:a) *)

(** Dropping a literal prefix. *)
Fixpoint lit (p s : string) : option string :=
  match p with
  | EmptyString => Some s
  | String a p' =>
      match s with
      | EmptyString => None
      | String b s' => if Ascii.eqb a b then lit p' s' else None
      end
  end.

(** [c*] followed by the continuation [k], longest repetition first. *)
Fixpoint star (c : cls) (s : string) (k : string -> bool) : bool :=
  match s with
  | EmptyString => k s
  | String a s' => (cls_mem c a && star c s' k) || k s
  end.

(** [a] is one of the characters of [chars]. *)
Fixpoint one_of (chars : string) (a : ascii) : bool :=
  match chars with
  | EmptyString => false
  | String b chars' => Ascii.eqb a b || one_of chars' a
  end.

(** Every character of [s] is in the class. *)
Fixpoint all_in (c : cls) (s : string) : bool :=
  match s with
  | EmptyString => true
  | String a s' => cls_mem c a && all_in c s'
  end.

(** Backtracking match of [r] at the start of [s]; [k] decides on the
    remaining input. *)
Fixpoint run (r : re) (s : string) (k : string -> bool) : bool :=
  match r with
  | Lit p => match lit p s with Some s' => k s' | None => false end
  | Star c => star c s k
  | Plus c =>
      match s with
      | EmptyString => false
      | String a s' => cls_mem c a && star c s' k
      end
  | AnyOf chars =>
      match s with
      | EmptyString => false
      | String a s' => one_of chars a && k s'
      end
  | Seq a b => run a s (fun s' => run b s' k)
  | Alt a b => run a s k || run b s k
  | Opt a => run a s k || k s
  | NegAhead a => negb (run a s (fun _ => true)) && k s
  | Group a => run a s k
  | NonCapture a => run a s k
  end.

Definition at_end (s : string) : bool :=
  match s with
  | EmptyString => true
  | String _ _ => false
  end.

(** A matcher pattern is applied to the whole path. *)
Definition test (r : re) (s : string) : bool := run r s at_end.

(** The pattern text of an expression. *)
Fixpoint escape (s : string) : string :=
  match s with
  | EmptyString => EmptyString
  | String a s' =>
      if Ascii.eqb a "." then String "\" (String a (escape s'))
      else String a (escape s')
  end.

Definition source_cls (c : cls) : string :=
  match c with
  | Dot => "."
  | Except x => String.append "[^" (String x "]")
  end.

Fixpoint source (r : re) : string :=
  match r with
  | Lit p => escape p
  | Star c => String.append (source_cls c) "*"
  | Plus c => String.append (source_cls c) "{1,}"
  | AnyOf chars => String.append "[" (String.append chars "]")
  | Seq a b => String.append (source a) (source b)
  | Alt a b => String.append (source a) (String "|" (source b))
  | Opt a => String.append (source a) "?"
  | NegAhead a => String.append "(?!" (String.append (source a) ")")
  | Group a => String.append "(" (String.append (source a) ")")
  | NonCapture a => String.append "(?:" (String.append (source a) ")")
  end.

End RegExp.

(** ** The frontend: proxy, matcher, providers *)

Module Frontend.
Import JS RegExp.

(** [const clerkKey = process.env.NEXT_PUBLIC_CLERK_PUBLISHABLE_KEY] *)
Definition clerkKey (env : Env) : option string :=
  env !! "NEXT_PUBLIC_CLERK_PUBLISHABLE_KEY".

(** [clerkMiddleware] of [@clerk/nextjs/server]: a call returns the
    middleware function. *)
Class ClerkNext (Request Response : Type) : Type := {
  clerkMiddleware : unit -> Request -> Response
}.

(** [NextResponse.next()] of [next/server]. *)
Class NextServer (Response : Type) : Type := {
  NextResponse_next : unit -> Response
}.

(** [export const proxy = clerkKey ? clerkMiddleware() : () => NextResponse.next()] *)
Definition proxy {Request Response}
    `{ClerkNext Request Response} `{NextServer Response} (env : Env)
  : Request -> Response :=
  if truthy (clerkKey env) then clerkMiddleware tt
  else fun _ => NextResponse_next tt.

(** The alternatives of the extension group, left to right. *)
Definition extensions : re :=
  Alt (Seq (Lit "htm") (Opt (Lit "l")))
 (Alt (Lit "css")
 (Alt (Seq (Lit "js") (NegAhead (Lit "on")))
 (Alt (Seq (Lit "jp") (Seq (Opt (Lit "e")) (Lit "g")))
 (Alt (Lit "webp")
 (Alt (Lit "png")
 (Alt (Lit "gif")
 (Alt (Lit "svg")
 (Alt (Lit "ttf")
 (Alt (Seq (Lit "woff") (Opt (Lit "2")))
 (Alt (Lit "ico")
 (Alt (Lit "csv")
 (Alt (Seq (Lit "doc") (Opt (Lit "x")))
 (Alt (Seq (Lit "xls") (Opt (Lit "x")))
 (Alt (Lit "zip")
      (Lit "webmanifest"))))))))))))))).

(** What the negative lookahead of the first pattern must not find. *)
Definition skipped : re :=
  Alt (Lit "_next")
      (Seq (Star (Except "?")) (Seq (Lit ".") (NonCapture extensions))).

(** First entry of [config.matcher]. *)
Definition matcher_pages : re :=
  Seq (Lit "/") (Group (Seq (NegAhead skipped) (Star Dot))).

(** Second entry of [config.matcher]. *)
Definition matcher_api : re :=
  Seq (Lit "/") (Seq (Group (Alt (Lit "api") (Lit "trpc"))) (Group (Star Dot))).

(** [export const config = { matcher: [...] }] *)
Definition matcher : list re := [matcher_pages; matcher_api].

(** What Next.js makes of a matcher entry: the expression that tries the
    entry after an optional [/_next/data/<id>], written
    [(?:\/(_next\/data\/[^/]{1,}))?], and allows [(\.json)?[\/#\?]?]
    after it, so that the request of a page's data is matched like the
    page. *)
Definition next_data : re :=
  Opt (NonCapture
         (Seq (Lit "/") (Group (Seq (Lit "_next/data/") (Plus (Except "/")))))).

Definition compiled (entry : re) : re :=
  Seq next_data
      (Seq (NonCapture entry)
           (Seq (Opt (Group (Lit ".json"))) (Opt (AnyOf "/#?")))).

(** Next.js invokes the proxy on a request when the compiled expression
    of one of the matcher entries matches its path. *)
Definition proxy_runs (path : string) : bool :=
  existsb (fun r => test (compiled r) path) matcher.

(** [s] from its first slash on; empty when it has none. *)
Fixpoint skip_segment (s : string) : string :=
  match s with
  | EmptyString => EmptyString
  | String a s' => if Ascii.eqb a "/" then s else skip_segment s'
  end.

(** The rest of a path that begins with [/_next/data/<id>], [<id>] being
    a segment that is not empty. *)
Definition data_route (path : string) : option string :=
  match lit "/_next/data/" path with
  | Some (String a s) => if Ascii.eqb a "/" then None else Some (skip_segment s)
  | _ => None
  end.

(** The path the entries are tried on: that of the page, for the request
    of a page's data. *)
Definition page_path (path : string) : string :=
  match data_route path with
  | Some rest => rest
  | None => path
  end.

(** A URL path: it starts with a slash and holds no query or fragment
    delimiter and no line terminator. *)
Fixpoint path_chars (s : string) : bool :=
  match s with
  | EmptyString => true
  | String a s' =>
      negb (Ascii.eqb a "?") && negb (Ascii.eqb a "#")
      && negb (line_terminator a) && path_chars s'
  end.

Definition pathname (s : string) : bool :=
  match s with
  | String "/" s' => path_chars s'
  | _ => false
  end.

(** The text after the last slash of [s], scanning [s] with [seg] the
    segment in progress. *)
Fixpoint last_segment (seg s : string) : string :=
  match s with
  | EmptyString => seg
  | String a s' =>
      if Ascii.eqb a "/" then last_segment s' s' else last_segment seg s'
  end.

Definition final_segment (path : string) : string := last_segment path path.

Fixpoint ends_with (suffix s : string) : bool :=
  String.eqb suffix s
  || match s with
     | EmptyString => false
     | String _ s' => ends_with suffix s'
     end.

(** The static-asset extensions the specification lists. *)
Definition static_extensions : list string :=
  ["html"; "css"; "js"; "jpeg"; "jpg"; "webp"; "png"; "gif"; "svg"; "ttf";
   "woff"; "woff2"; "ico"; "csv"; "doc"; "docx"; "xls"; "xlsx"; "zip";
   "webmanifest"].

Definition static_asset (path : string) : bool :=
  existsb (fun ext => ends_with (String "." ext) (final_segment path))
          static_extensions.

(** Some segment of the path starts with [p]: [p] follows a slash. *)
Fixpoint segment_starts (p s : string) : bool :=
  match s with
  | EmptyString => false
  | String a s' =>
      (Ascii.eqb a "/" && match lit p s' with Some _ => true | None => false end)
      || segment_starts p s'
  end.

(** The first segment of the path starts with [_next]. *)
Definition next_internal (path : string) : bool :=
  match lit "/_next" path with
  | Some _ => true
  | None => false
  end.

Definition api_route (path : string) : bool :=
  match lit "/api" path, lit "/trpc" path with
  | None, None => false
  | _, _ => true
  end.

(** *** React trees *)

Inductive Component : Type := ClerkProvider | ApolloProvider.

(** A rendered tree over an opaque [children] value of type [A]. *)
#[warnings="-register-all"]
Inductive Node (A : Type) : Type :=
| Slot (children : A)
| Elem (component : Component) (kids : list (Node A)).
Arguments Slot {A} children.
Arguments Elem {A} component kids.

(** The occurrences of [{children}] in a tree, in document order. *)
Fixpoint slots {A} (n : Node A) : list A :=
  match n with
  | Slot c => [c]
  | Elem _ kids => List.concat (List.map slots kids)
  end.

(** The components instantiated by a tree. *)
Fixpoint components {A} (n : Node A) : list Component :=
  match n with
  | Slot _ => []
  | Elem c kids => c :: List.concat (List.map components kids)
  end.

(** The chain of components around the first [{children}], outermost
    first; [None] when the tree has no slot. *)
Fixpoint wrappers {A} (n : Node A) : option (list Component) :=
  match n with
  | Slot _ => Some []
  | Elem c kids =>
      (fix first (l : list (Node A)) : option (list Component) :=
         match l with
         | [] => None
         | k :: l' =>
             match wrappers k with
             | Some ws => Some (c :: ws)
             | None => first l'
             end
         end) kids
  end.

(** [providers/index.tsx] with the Clerk key test. *)
Definition Providers {A} (env : Env) (children : A) : Node A :=
  if negb (truthy (clerkKey env)) then
    Elem ApolloProvider [Slot children]
  else
    Elem ClerkProvider [Elem ApolloProvider [Slot children]].

(** [providers/index.tsx] in the revision without Clerk. *)
Module ApolloOnly.
Definition Providers {A} (children : A) : Node A :=
  Elem ApolloProvider [Slot children].
End ApolloOnly.

End Frontend.

(** ** Sample data for concrete runs *)

Module Samples.
Import JS Prisma Backend Frontend.

Definition alice : User :=
  {| Prisma.id := 7; auth_id := "user_2abc"; email := "alice@example.com";
     name := Some "Alice"; phone := None; image := None; Prisma.role := USER;
     subscribed_to_newsletter := false; newsletter_subscribed_at := None;
     created_at := 1700000000; updated_at := 1700000000 |}.

Definition db : World := {| users := [alice]; trace := [] |}.

Definition claims : CustomJwtSessionClaims :=
  {| dbUserId := Some 7; environment := Some local; Backend.role := Some USER |}.

Definition stranger : CustomJwtSessionClaims :=
  {| dbUserId := Some 8; environment := Some local; Backend.role := Some USER |}.

Definition ctx : Context := {| prisma := Prisma.prisma; user := Some claims |}.

(** Requests are represented by their bearer token. *)
Definition clerk : ClerkBackend string :=
  {| verifyToken := fun token =>
       if String.eqb token "alice-session" then Some claims
       else if String.eqb token "stranger-session" then Some stranger
       else None |}.

Definition guard : AuthGuard :=
  {| authenticated := fun ctx => match user ctx with Some _ => true | None => false end;
     unauthenticated := GraphQLError "Unauthorized" |}.

Definition clerk_next : ClerkNext string string :=
  {| clerkMiddleware := fun _ req => String.append "clerk:" req |}.

Definition next_server : NextServer string :=
  {| NextResponse_next := fun _ => "next" |}.

Definition env_with_key : Env :=
  {[ "NEXT_PUBLIC_CLERK_PUBLISHABLE_KEY" := "pk_test_sample" ]}.

Definition env_without_key : Env := ∅.

Definition env_empty_key : Env :=
  {[ "NEXT_PUBLIC_CLERK_PUBLISHABLE_KEY" := EmptyString ]}.

End Samples.

(** ** The batch function of [userLoader] *)

Module Loaders.
Import JS Prisma Backend.
Local Open Scope async_scope.

(** [client.user.findMany({ where: { id: { in: [...ids] } } })]: one
    query; the rows whose id is among [ids], in the order of the table.
    One key outside the range of the column makes the whole query fail. *)
Definition findMany (client : PrismaClient) (ids : list Z) : Async (list User) :=
  let* _ := issue client (FindMany ids) in
  fun w =>
    if forallb int4 ids
    then (Fulfilled (List.filter (fun u => existsb (Z.eqb (Prisma.id u)) ids) (users w)), w)
    else (Rejected (ValueOutOfRange "findMany"), w).

(** The function handed to [new DataLoader(...)] in the context factory:
    [[
    async (ids) => {
      const users = await prisma.user.findMany({ where: { id: { in: [...ids] } } });
      return ids.map(id => users.find(u => u.id === id) || null);
    }
    ]]
    [client] is the module's [prisma]. *)
Definition userLoader_batch (client : PrismaClient) (ids : list Z)
  : Async (list (option User)) :=
  let* users := findMany client ids in
  ret (map (fun id => find (fun u => Prisma.id u =? id) users) ids).

(** The pattern the loader replaces: one [findUnique] per key, awaited in
    turn. *)
Fixpoint one_query_per_key (client : PrismaClient) (ids : list Z)
  : Async (list (option User)) :=
  match ids with
  | [] => ret []
  | id :: ids' =>
      let* row := findUnique client (Some id) in
      let* rows := one_query_per_key client ids' in
      ret (row :: rows)
  end.

End Loaders.

(** ** The first matcher pattern, read as a scan of the path *)

Module Scan.
Import RegExp.

(** [s] begins with [p]. *)
Definition starts (p s : string) : bool :=
  match lit p s with
  | Some _ => true
  | None => false
  end.

(** One of the alternatives of the extension group begins at [s]; [js]
    counts unless [on] follows it. *)
Definition extension_at (s : string) : bool :=
  starts "htm" s
  || (starts "css" s
  || ((starts "js" s && negb (starts "json" s))
  || ((starts "jpeg" s || starts "jpg" s)
  || (starts "webp" s
  || (starts "png" s
  || (starts "gif" s
  || (starts "svg" s
  || (starts "ttf" s
  || (starts "woff" s
  || (starts "ico" s
  || (starts "csv" s
  || (starts "doc" s
  || (starts "xls" s
  || (starts "zip" s
  || starts "webmanifest" s)))))))))))))).

(** Somewhere in [s] a dot is directly followed by such an alternative. *)
Fixpoint static_dot (s : string) : bool :=
  match s with
  | EmptyString => false
  | String a s' => (Ascii.eqb a "." && extension_at s') || static_dot s'
  end.

(** The tests a path goes through: it begins with a slash, and either it
    is an API route, or its first segment is not [_next] and no dot in it
    is followed by an extension. *)
Definition path_passes (path : string) : bool :=
  starts "/" path
  && (Frontend.api_route path
      || (negb (Frontend.next_internal path) && negb (static_dot path))).

End Scan.

(** ** More sample data *)

Module Fixtures.
Import JS Prisma Backend.

Definition bob : User :=
  {| Prisma.id := 9; auth_id := "user_2xyz"; email := "bob@example.com";
     name := None; phone := Some "+15550100"; image := None; Prisma.role := ADMIN;
     subscribed_to_newsletter := true; newsletter_subscribed_at := Some 1700000500;
     created_at := 1700000100; updated_at := 1700000500 |}.

Definition two_users : World :=
  {| users := [Samples.alice; bob]; trace := [] |}.

(** A context whose [dbUserId] does not fit the [id] column. *)
Definition far_ctx : Context :=
  {| prisma := Prisma.prisma;
     user := Some {| dbUserId := Some 2147483648;
                     environment := Some production;
                     Backend.role := Some USER |} |}.

End Fixtures.

(** * Properties of the backend *)

Module BackendFacts.
Import JS Prisma Backend.
Local Open Scope async_scope.

(** *** Rows and keyed lookup *)

(** [id] is the primary key: with unique ids, the keyed scan returns the
    one row that carries the key. *)
Lemma find_row (rows : list User) (key : Z) (u : User) :
  NoDup (Prisma.id <$> rows) ->
  u ∈ rows ->
  Prisma.id u = key ->
  find (fun r => Prisma.id r =? key) rows = Some u.
Proof.
  induction rows as [|r rows IH]; intros Hnd Hin Hid.
  - by apply elem_of_nil in Hin.
  - rewrite fmap_cons in Hnd. apply NoDup_cons in Hnd as [Hfresh Hnd].
    apply elem_of_cons in Hin as [->|Hin]; simpl.
    + by rewrite (proj2 (Z.eqb_eq _ _) Hid).
    + destruct (Z.eqb_spec (Prisma.id r) key) as [Heq|_]; [|by apply IH].
      exfalso. apply Hfresh. rewrite Heq, <- Hid.
      by apply list_elem_of_fmap_2.
Qed.

Lemma find_no_row (rows : list User) (key : Z) :
  (forall u, u ∈ rows -> Prisma.id u <> key) ->
  find (fun r => Prisma.id r =? key) rows = None.
Proof.
  induction rows as [|r rows IH]; intros Hno; [done|]. simpl.
  destruct (Z.eqb_spec (Prisma.id r) key) as [Heq|_].
  - exfalso. apply (Hno r); [apply list_elem_of_here | done].
  - apply IH. intros u Hu. apply Hno. by apply list_elem_of_further.
Qed.

(** *** The resolver in terms of the table *)

Lemma findUnique_run (client : PrismaClient) (key : Z) (w : World) :
  int4 key = true ->
  findUnique client (Some key) w =
  (Fulfilled (find (fun r => Prisma.id r =? key) (users w)), after_lookup client key w).
Proof. intros Hkey. unfold findUnique, bind, issue. by rewrite Hkey. Qed.

(** A key that does not fit the column: the query fails. *)
Lemma findUnique_far (client : PrismaClient) (key : Z) (w : World) :
  int4 key = false ->
  findUnique client (Some key) w =
  (Rejected (ValueOutOfRange "findUnique"), after_lookup client key w).
Proof. intros Hkey. unfold findUnique, bind, issue. by rewrite Hkey. Qed.

(** The method body in terms of the scan of the table. *)
Lemma user_method_run (ctx : Context) (key : Z) (w : World) :
  ctx_dbUserId ctx = Some key ->
  int4 key = true ->
  UserResolver.user_method ctx w =
  (match find (fun r => Prisma.id r =? key) (users w) with
   | Some u => Fulfilled u
   | None => Rejected (GraphQLError "User not found")
   end, after_lookup (prisma ctx) key w).
Proof.
  intros Hkey Hfit. unfold UserResolver.user_method, tryCatchAsync, try_catch, bind.
  rewrite Hkey, (findUnique_run _ key w Hfit).
  by destruct (find _ (users w)).
Qed.

Lemma user_method_far (ctx : Context) (key : Z) (w : World) :
  ctx_dbUserId ctx = Some key ->
  int4 key = false ->
  UserResolver.user_method ctx w =
  (Rejected (GraphQLError (message (ValueOutOfRange "findUnique"))),
   after_lookup (prisma ctx) key w).
Proof.
  intros Hkey Hfar. unfold UserResolver.user_method, tryCatchAsync, try_catch, bind.
  by rewrite Hkey, (findUnique_far _ key w Hfar).
Qed.

Lemma user_method_no_key (ctx : Context) (w : World) :
  ctx_dbUserId ctx = None ->
  UserResolver.user_method ctx w =
  (Rejected (GraphQLError (message PrismaClientValidationError)), w).
Proof.
  intros Hkey. unfold UserResolver.user_method, tryCatchAsync, try_catch, bind.
  by rewrite Hkey.
Qed.

Lemma user_run `{AuthGuard} (ctx : Context) (key : Z) (w : World) :
  authenticated ctx = true ->
  ctx_dbUserId ctx = Some key ->
  int4 key = true ->
  UserResolver.user ctx w =
  (match find (fun r => Prisma.id r =? key) (users w) with
   | Some u => Fulfilled u
   | None => Rejected (GraphQLError "User not found")
   end, after_lookup (prisma ctx) key w).
Proof.
  intros Hauth Hkey Hfit. unfold UserResolver.user, authRequired.
  rewrite Hauth. by apply user_method_run.
Qed.

(** The [user] query leaves the table alone and at most one more event
    in the trace, and that event is a read through the client of the
    context. *)
Lemma user_trace `{AuthGuard} (ctx : Context) (w : World) :
  users (UserResolver.user ctx w).2 = users w
  /\ (trace (UserResolver.user ctx w).2 = trace w
      \/ exists key, trace (UserResolver.user ctx w).2
                     = trace w ++ [(pool_for (prisma ctx) ReadOp, FindUnique key)]).
Proof.
  unfold UserResolver.user, authRequired.
  destruct (authenticated ctx); [|by split; [|left]].
  destruct (ctx_dbUserId ctx) as [key|] eqn:Hkey.
  - destruct (int4 key) eqn:Hfit.
    + rewrite (user_method_run ctx key w Hkey Hfit). split; [done|]. right. by exists key.
    + rewrite (user_method_far ctx key w Hkey Hfit). split; [done|]. right. by exists key.
  - rewrite (user_method_no_key ctx w Hkey). by split; [|left].
Qed.

(** *** The error policy *)

Lemma tryCatchAsync_run {A} (fn : unit -> Async A) (w : World) :
  tryCatchAsync fn w =
  match fn tt w with
  | (Fulfilled a, w') => (Fulfilled a, w')
  | (Rejected e, w') => (Rejected (GraphQLError (message e)), w')
  end.
Proof.
  unfold tryCatchAsync, try_catch, throw.
  by destruct (fn tt w) as [[a|e] w'].
Qed.

(** *** The middleware and the request path *)





(** *** The claims about the backend *)

(** C1, as stated, fails on two inputs.  The [GET_USER] document asks for
    phone, auth_id, image and subscribed_to_newsletter, which
    [UserResponse] does not declare: it is refused at validation and no
    lookup is made.  And for a [dbUserId] outside the range of the [id]
    column no record exists, yet the query is rejected with the range
    error of the lookup, not with ["User not found"]. *)
Lemma user_query_counterexample :
  @execute_GET_USER Samples.guard Samples.ctx Samples.db = (Invalid "phone", Samples.db)
  /\ (forall u, u ∈ users Samples.db -> Prisma.id u <> 2147483648)
  /\ exists e,
       (@UserResolver.user Samples.guard Fixtures.far_ctx Samples.db).1 = Rejected e
       /\ e <> GraphQLError "User not found".
Proof.
  split; [reflexivity|]. split.
  - intros u Hu. apply list_elem_of_singleton in Hu as ->. discriminate.
  - eexists. split; [reflexivity | discriminate].
Qed.

(** C1, amended.  For a [dbUserId] within the signed 32-bit range of the
    [id] column, the protected query [user] performs exactly one keyed
    database lookup: for an authenticated context carrying
    [dbUserId = key], on a table whose ids are unique, the trace grows by
    the single operation [FindUnique key]; when the row with that id
    exists the query resolves to it, and a document reads the fields
    [UserResponse] declares, id, email, name and role, off it; when no
    row has that id the query is rejected with the GraphQL error
    ["User not found"]. *)
Theorem user_query_keyed_lookup `{AuthGuard} (ctx : Context) (key : Z) (w : World) :
  authenticated ctx = true ->
  ctx_dbUserId ctx = Some key ->
  int4 key = true ->
  NoDup (Prisma.id <$> users w) ->
  (forall u, u ∈ users w -> Prisma.id u = key ->
     UserResolver.user ctx w = (Fulfilled u, after_lookup (prisma ctx) key w)
     /\ execute UserResponse ctx w
        = (Executed (Fulfilled [("id", VInt (Prisma.id u));
                                ("email", VString (Prisma.email u));
                                ("name", nullable (Prisma.name u));
                                ("role", VRole (Prisma.role u))]),
           after_lookup (prisma ctx) key w))
  /\ ((forall u, u ∈ users w -> Prisma.id u <> key) ->
     UserResolver.user ctx w
     = (Rejected (GraphQLError "User not found"), after_lookup (prisma ctx) key w)
     /\ execute UserResponse ctx w
        = (Executed (Rejected (GraphQLError "User not found")),
           after_lookup (prisma ctx) key w)).
Proof.
  intros Hauth Hkey Hfit Hnd. split.
  - intros u Hin Hid.
    assert (Hrun : UserResolver.user ctx w
                   = (Fulfilled u, after_lookup (prisma ctx) key w)).
    { rewrite (user_run ctx key w Hauth Hkey Hfit).
      by rewrite (find_row (users w) key u Hnd Hin Hid). }
    split; [exact Hrun|].
    unfold execute. simpl undeclared. by rewrite Hrun.
  - intros Hno.
    assert (Hrun : UserResolver.user ctx w
                   = (Rejected (GraphQLError "User not found"),
                      after_lookup (prisma ctx) key w)).
    { rewrite (user_run ctx key w Hauth Hkey Hfit).
      by rewrite (find_no_row (users w) key Hno). }
    split; [exact Hrun|].
    unfold execute. simpl undeclared. by rewrite Hrun.
Qed.

Lemma user_query_keyed_lookup_witness :
  @UserResolver.user Samples.guard Samples.ctx Samples.db
  = (Fulfilled Samples.alice,
     {| users := [Samples.alice]; trace := [(Replica, FindUnique 7)] |})
  /\ @execute Samples.guard UserResponse Samples.ctx Samples.db
     = (Executed (Fulfilled [("id", VInt 7); ("email", VString "alice@example.com");
                             ("name", VString "Alice"); ("role", VRole USER)]),
        {| users := [Samples.alice]; trace := [(Replica, FindUnique 7)] |}).
Proof.
  destruct (@user_query_keyed_lookup Samples.guard Samples.ctx 7 Samples.db)
    as [Hfound _].
  - reflexivity.
  - reflexivity.
  - reflexivity.
  - apply NoDup_singleton.
  - apply (Hfound Samples.alice); [apply list_elem_of_here | reflexivity].
Defined.



(** C3.  The failure-handling policy of a resolver is to catch and
    convert: a body that resolves is passed through; an error thrown
    inside the body leaves [tryCatchAsync] as a [GraphQLError] with the
    original message; nothing else happens to the world (no retry, no
    write).  The resolver of the repository, the body of
    [UserResolver.user], is such a wrapped body, so no error leaves it
    in any other form. *)
Theorem errors_become_GraphQLError {A} (fn : unit -> Async A)
    (ctx : Context) (w : World) :
  (forall a w', fn tt w = (Fulfilled a, w') ->
     tryCatchAsync fn w = (Fulfilled a, w'))
  /\ (forall e w', fn tt w = (Rejected e, w') ->
     tryCatchAsync fn w = (Rejected (GraphQLError (message e)), w'))
  /\ (tryCatchAsync fn w).2 = (fn tt w).2
  /\ (forall e w', UserResolver.user_method ctx w = (Rejected e, w') ->
     e = GraphQLError (message e)).
Proof.
  repeat split.
  - intros a w' Hrun. by rewrite tryCatchAsync_run, Hrun.
  - intros e w' Hrun. by rewrite tryCatchAsync_run, Hrun.
  - rewrite tryCatchAsync_run. by destruct (fn tt w) as [[a|e] w'].
  - intros e w'. unfold UserResolver.user_method.
    rewrite tryCatchAsync_run.
    match goal with |- context [match ?m with _ => _ end] => destruct m as [[a|e0] w0] end.
    + discriminate.
    + intros [= <- _]. reflexivity.
Qed.

Lemma errors_become_GraphQLError_witness :
  tryCatchAsync (fun _ => throw (A := User) (OtherError "TypeError" "fetch failed"))
    Samples.db
  = (Rejected (GraphQLError "fetch failed"), Samples.db).
Proof.
  destruct (errors_become_GraphQLError
              (fun _ => throw (A := User) (OtherError "TypeError" "fetch failed"))
              Samples.ctx Samples.db) as (_ & Hthrown & _).
  apply (Hthrown (OtherError "TypeError" "fetch failed") Samples.db).
  reflexivity.
Defined.



(** Runs of the request path on the sample table: the lookup of the
    middleware comes first, that of the resolver second. *)
Example alice_is_served :
  @handle_request string Samples.clerk User
    (@UserResolver.user Samples.guard) "alice-session" Samples.db
  = (Fulfilled Samples.alice,
     {| users := [Samples.alice];
        trace := [(Replica, FindUnique 7); (Replica, FindUnique 7)] |}).
Proof. reflexivity. Qed.

Example stranger_is_turned_away :
  @handle_request string Samples.clerk User
    (@UserResolver.user Samples.guard) "stranger-session" Samples.db
  = (Rejected (GraphQLError "Unauthorized"),
     {| users := [Samples.alice]; trace := [(Replica, FindUnique 8)] |}).
Proof. reflexivity. Qed.

Example anonymous_is_turned_away :
  @handle_request string Samples.clerk User
    (@UserResolver.user Samples.guard) "no-session" Samples.db
  = (Rejected (GraphQLError "Unauthorized"), Samples.db).
Proof. reflexivity. Qed.

(** Without a [dbUserId] the lookup is refused before any query is sent,
    and the refusal leaves the method as a [GraphQLError]. *)
Example missing_key_is_converted :
  UserResolver.user_method {| prisma := Prisma.prisma; user := None |} Samples.db
  = (Rejected (GraphQLError (message PrismaClientValidationError)), Samples.db).
Proof. reflexivity. Qed.

End BackendFacts.
(** * Properties of the patterns *)

Module RegExpFacts.
Import RegExp.

(** [String.append] by its equations. *)
Lemma append_nil (b : string) : String.append EmptyString b = b.
Proof. reflexivity. Qed.

Lemma append_cons (x : ascii) (a b : string) :
  String.append (String x a) b = String x (String.append a b).
Proof. reflexivity. Qed.

Lemma append_assoc (a b c : string) :
  String.append (String.append a b) c = String.append a (String.append b c).
Proof.
  induction a as [|x a IH]; [reflexivity|].
  by rewrite !append_cons, IH.
Qed.

(** A literal that is dropped was a prefix. *)
Lemma lit_Some (p s rest : string) :
  lit p s = Some rest -> s = String.append p rest.
Proof.
  revert s. induction p as [|a p IH]; intros s; simpl.
  - by intros [= ->].
  - destruct s as [|b s]; [discriminate|].
    destruct (Ascii.eqb_spec a b) as [->|_]; [|discriminate].
    intros Hlit. by rewrite append_cons, (IH s Hlit).
Qed.

Lemma lit_append (p rest : string) : lit p (String.append p rest) = Some rest.
Proof.
  induction p as [|a p IH]; [reflexivity|].
  rewrite append_cons. simpl. by rewrite Ascii.eqb_refl.
Qed.

(** The star may stop at once. *)
Lemma star_stop (c : cls) (s : string) (k : string -> bool) :
  k s = true -> star c s k = true.
Proof. intros Hk. destruct s; simpl; rewrite Hk; [reflexivity | apply orb_true_r]. Qed.

(** The star runs over a stretch of characters of its class. *)
Lemma star_over (c : cls) (a b : string) (k : string -> bool) :
  all_in c a = true ->
  k b = true ->
  star c (String.append a b) k = true.
Proof.
  induction a as [|x a IH]; intros Hall Hk.
  - by apply star_stop.
  - rewrite append_cons. simpl in *.
    apply andb_true_iff in Hall as [Hx Hall].
    by rewrite Hx, (IH Hall Hk).
Qed.

Lemma all_in_append (c : cls) (a b : string) :
  all_in c (String.append a b) = all_in c a && all_in c b.
Proof.
  induction a as [|x a IH]; [reflexivity|].
  rewrite append_cons. simpl. by rewrite IH, andb_assoc.
Qed.

(** [.*] up to the end of a string without line terminators. *)
Lemma star_dot_to_end (s : string) :
  all_in Dot s = true -> star Dot s at_end = true.
Proof.
  induction s as [|x s IH]; simpl; [reflexivity|].
  intros Hall. apply andb_true_iff in Hall as [Hx Hall].
  by rewrite Hx, (IH Hall).
Qed.

(** The pattern texts are those of [proxy.ts]. *)
Lemma source_matcher_pages :
  source Frontend.matcher_pages
  = "/((?!_next|[^?]*\.(?:html?|css|js(?!on)|jpe?g|webp|png|gif|svg|ttf|woff2?|ico|csv|docx?|xlsx?|zip|webmanifest)).*)".
Proof. reflexivity. Qed.

Lemma source_matcher_api : source Frontend.matcher_api = "/(api|trpc)(.*)".
Proof. reflexivity. Qed.

End RegExpFacts.

(** * Properties of the frontend *)

Module FrontendFacts.
Import JS RegExp RegExpFacts Frontend.

(** *** Paths *)

Lemma path_chars_append (a b : string) :
  path_chars (String.append a b) = path_chars a && path_chars b.
Proof.
  induction a as [|x a IH]; [reflexivity|].
  rewrite append_cons. simpl. by rewrite IH, !andb_assoc.
Qed.

Lemma path_chars_no_query (s : string) :
  path_chars s = true -> all_in (Except "?") s = true.
Proof.
  induction s as [|x s IH]; simpl; [reflexivity|].
  intros H. repeat (apply andb_true_iff in H as [H ?]).
  rewrite H. by rewrite IH.
Qed.

Lemma path_chars_no_newline (s : string) :
  path_chars s = true -> all_in Dot s = true.
Proof.
  induction s as [|x s IH]; simpl; [reflexivity|].
  intros H. repeat (apply andb_true_iff in H as [H ?]).
  rewrite IH by done. by rewrite andb_true_r.
Qed.

Lemma path_chars_lit (p s rest : string) :
  lit p s = Some rest -> path_chars s = true -> path_chars rest = true.
Proof.
  intros Hlit. rewrite (lit_Some p s rest Hlit), path_chars_append.
  intros H. by apply andb_true_iff in H as [_ H].
Qed.

(** The final segment is a suffix of what was scanned. *)
Lemma last_segment_suffix (s seg : string) :
  last_segment seg s = seg
  \/ exists pre, s = String.append pre (last_segment seg s).
Proof.
  revert seg. induction s as [|a s IH]; intros seg; simpl; [by left|].
  destruct (Ascii.eqb a "/").
  - right. destruct (IH s) as [-> | [pre Hpre]].
    + by exists (String a EmptyString).
    + exists (String a pre). by rewrite append_cons, <- Hpre.
  - destruct (IH seg) as [-> | [pre Hpre]]; [by left|].
    right. exists (String a pre). by rewrite append_cons, <- Hpre.
Qed.

Lemma final_segment_suffix (s : string) :
  exists pre, s = String.append pre (final_segment (String "/" s)).
Proof.
  unfold final_segment. simpl.
  destruct (last_segment_suffix s s) as [-> | Hpre]; [|exact Hpre].
  by exists EmptyString.
Qed.

Lemma ends_with_suffix (suffix s : string) :
  ends_with suffix s = true -> exists pre, s = String.append pre suffix.
Proof.
  induction s as [|a s IH]; simpl; intros H.
  - rewrite orb_false_r in H. apply String.eqb_eq in H as ->. by exists EmptyString.
  - apply orb_true_iff in H as [H | H].
    + apply String.eqb_eq in H as ->. by exists EmptyString.
    + destruct (IH H) as [pre ->]. by exists (String a pre).
Qed.

(** *** The two patterns, unfolded on a path *)

Lemma test_matcher_pages (s : string) :
  test matcher_pages (String "/" s)
  = negb (run skipped s (fun _ => true)) && star Dot s at_end.
Proof. reflexivity. Qed.

Lemma run_skipped (s : string) :
  run skipped s (fun _ => true)
  = match lit "_next" s with Some _ => true | None => false end
    || star (Except "?") s
         (fun s' => run (Seq (Lit ".") (NonCapture extensions)) s' (fun _ => true)).
Proof. reflexivity. Qed.

Lemma test_matcher_api (s : string) :
  test matcher_api (String "/" s)
  = match lit "api" s with Some s' => star Dot s' at_end | None => false end
    || match lit "trpc" s with Some s' => star Dot s' at_end | None => false end.
Proof. reflexivity. Qed.

Lemma api_route_slash (s : string) :
  api_route (String "/" s)
  = match lit "api" s, lit "trpc" s with None, None => false | _, _ => true end.
Proof. reflexivity. Qed.

Lemma next_internal_slash (s : string) :
  next_internal (String "/" s)
  = match lit "_next" s with Some _ => true | None => false end.
Proof. reflexivity. Qed.

(** Each listed extension, after a dot, is accepted by the extension
    group of the first pattern. *)
Lemma listed_extension_accepted (ext : string) :
  In ext static_extensions ->
  run (Seq (Lit ".") (NonCapture extensions)) (String "." ext) (fun _ => true) = true.
Proof.
  unfold static_extensions. intros Hin.
  repeat (destruct Hin as [<- | Hin]; [reflexivity|]).
  destruct Hin.
Qed.

(** On a URL path the second pattern matches exactly the paths that
    begin with [/api] or [/trpc]. *)
Lemma matcher_api_routes (path : string) :
  pathname path = true -> test matcher_api path = api_route path.
Proof.
  destruct path as [|a s]; [discriminate|].
  unfold pathname. destruct (Ascii.eqb_spec a "/") as [->|Hne].
  - intros Hs. rewrite test_matcher_api, api_route_slash.
    destruct (lit "api" s) as [s1|] eqn:H1; destruct (lit "trpc" s) as [s2|] eqn:H2;
      try reflexivity.
    + rewrite (star_dot_to_end s1); [reflexivity|].
      apply path_chars_no_newline. by apply (path_chars_lit "api" s).
    + rewrite (star_dot_to_end s1); [reflexivity|].
      apply path_chars_no_newline. by apply (path_chars_lit "api" s).
    + rewrite (star_dot_to_end s2); [reflexivity|].
      apply path_chars_no_newline. by apply (path_chars_lit "trpc" s).
  - intros H. exfalso.
    destruct a as [[] [] [] [] [] [] [] []]; try discriminate H. by apply Hne.
Qed.

(** A path into [_next], or one whose final segment carries a listed
    extension, is not matched by the first pattern. *)
Lemma matcher_pages_skips (path : string) :
  pathname path = true ->
  next_internal path = true \/ static_asset path = true ->
  test matcher_pages path = false.
Proof.
  destruct path as [|a s]; [discriminate|].
  unfold pathname. destruct (Ascii.eqb_spec a "/") as [->|Hne].
  - intros Hs Hskip. rewrite test_matcher_pages, run_skipped.
    destruct Hskip as [Hnext | Hstatic].
    + rewrite next_internal_slash in Hnext. by rewrite Hnext.
    + apply existsb_exists in Hstatic as (ext & Hext & Hends).
      apply ends_with_suffix in Hends as [stem Hstem].
      destruct (final_segment_suffix s) as [dirs Hdirs].
      rewrite Hstem, <- append_assoc in Hdirs.
      assert (Hstar : star (Except "?") s
                (fun s' => run (Seq (Lit ".") (NonCapture extensions)) s' (fun _ => true))
              = true).
      { rewrite Hdirs. apply star_over.
        - apply path_chars_no_query. rewrite Hdirs, path_chars_append in Hs.
          by apply andb_true_iff in Hs as [Hs _].
        - by apply listed_extension_accepted. }
      by rewrite Hstar, orb_true_r.
  - intros H. exfalso.
    destruct a as [[] [] [] [] [] [] [] []]; try discriminate H. by apply Hne.
Qed.

(** *** The Clerk key *)

Lemma truthy_Some (key : string) : key <> EmptyString -> truthy (Some key) = true.
Proof. by destruct key. Qed.

Lemma truthy_key (v : option string) :
  truthy v = true -> exists key, v = Some key /\ key <> EmptyString.
Proof.
  destruct v as [[|a key]|]; try discriminate.
  intros _. by exists (String a key).
Qed.

(** A key set to the empty string is falsy: the code treats it like a
    key that is not set. *)
Lemma empty_key_is_falsy {A} (children : A) :
  clerkKey Samples.env_empty_key = Some EmptyString
  /\ Providers Samples.env_empty_key children = Elem ApolloProvider [Slot children]
  /\ @proxy string string Samples.clerk_next Samples.next_server
       Samples.env_empty_key "request" = "next".
Proof. by repeat split. Qed.

(** The revision of [providers/index.tsx] without Clerk renders what the
    keyed revision renders when the key is absent. *)
Lemma ApolloOnly_Providers {A} (env : Env) (children : A) :
  truthy (clerkKey env) = false ->
  Providers env children = ApolloOnly.Providers children.
Proof. unfold Providers. by intros ->. Qed.

(** *** The claims about the frontend *)

(** C5.  When the Clerk publishable key is configured (the environment
    variable holds a non-empty string), the exported [proxy] is exactly
    the function returned by [clerkMiddleware()]: the repository wraps
    no logic of its own around it, so every request gets the response
    Clerk's middleware gives. *)
Theorem proxy_is_clerkMiddleware {Request Response}
    `{ClerkNext Request Response} `{NextServer Response}
    (env : Env) (key : string) :
  clerkKey env = Some key ->
  key <> EmptyString ->
  proxy env = clerkMiddleware tt
  /\ forall req : Request, proxy env req = clerkMiddleware tt req.
Proof.
  intros Hkey Hne. unfold proxy. rewrite Hkey, (truthy_Some key Hne). by split.
Qed.

Lemma proxy_is_clerkMiddleware_witness :
  @proxy string string Samples.clerk_next Samples.next_server Samples.env_with_key
  = @clerkMiddleware string string Samples.clerk_next tt.
Proof.
  apply (@proxy_is_clerkMiddleware string string Samples.clerk_next
           Samples.next_server Samples.env_with_key "pk_test_sample").
  - reflexivity.
  - discriminate.
Defined.

(** C6.  If NEXT_PUBLIC_CLERK_PUBLISHABLE_KEY is unset when the module is
    loaded, then for every request [proxy] returns [NextResponse.next()]:
    the request passes through and Clerk's middleware has no part in the
    response, whatever that middleware is. *)
Theorem proxy_passes_through_without_key {Request Response}
    `{NextServer Response} (env : Env) :
  clerkKey env = None ->
  forall (clerk : ClerkNext Request Response) (req : Request),
    proxy env req = NextResponse_next tt.
Proof. intros Hkey clerk req. unfold proxy. by rewrite Hkey. Qed.

Lemma proxy_passes_through_without_key_witness :
  @proxy string string Samples.clerk_next Samples.next_server
    Samples.env_without_key "GET /dashboard"
  = "next".
Proof.
  apply (@proxy_passes_through_without_key string string Samples.next_server
           Samples.env_without_key).
  reflexivity.
Defined.

(** C7, as stated, fails when the variable is set to the empty string:
    the variable is set, and [Providers] renders [ApolloProvider] alone,
    not [ClerkProvider] around it. *)
Lemma Providers_empty_key_counterexample :
  is_Some (clerkKey Samples.env_empty_key)
  /\ Providers Samples.env_empty_key "page" = Elem ApolloProvider [Slot "page"]
  /\ Providers Samples.env_empty_key "page"
     <> Elem ClerkProvider [Elem ApolloProvider [Slot "page"]].
Proof.
  split; [by exists EmptyString|]. split; [reflexivity | discriminate].
Qed.

(** C7, amended.  For every children value, [Providers] renders children
    exactly once: wrapped only in [ApolloProvider] when
    NEXT_PUBLIC_CLERK_PUBLISHABLE_KEY is unset or empty, and wrapped in
    [ClerkProvider] containing [ApolloProvider] when it is set to a
    non-empty value; [ClerkProvider] is in the tree only if a non-empty
    key is present. *)
Theorem Providers_composition {A} (env : Env) (children : A) :
  slots (Providers env children) = [children]
  /\ (clerkKey env = None \/ clerkKey env = Some EmptyString ->
      Providers env children = Elem ApolloProvider [Slot children]
      /\ wrappers (Providers env children) = Some [ApolloProvider])
  /\ (forall key, clerkKey env = Some key -> key <> EmptyString ->
      Providers env children
      = Elem ClerkProvider [Elem ApolloProvider [Slot children]]
      /\ wrappers (Providers env children) = Some [ClerkProvider; ApolloProvider])
  /\ (In ClerkProvider (components (Providers env children)) ->
      exists key, clerkKey env = Some key /\ key <> EmptyString).
Proof.
  unfold Providers. split; [|split; [|split]].
  - by destruct (truthy (clerkKey env)).
  - by intros [-> | ->].
  - intros key Hkey Hne. by rewrite Hkey, (truthy_Some key Hne).
  - destruct (truthy (clerkKey env)) eqn:Htruthy; simpl.
    + intros _. by apply truthy_key.
    + intros [Hc | []]. discriminate Hc.
Qed.

Lemma Providers_composition_witness :
  Providers Samples.env_with_key "page"
  = Elem ClerkProvider [Elem ApolloProvider [Slot "page"]]
  /\ Providers Samples.env_without_key "page" = Elem ApolloProvider [Slot "page"].
Proof.
  split.
  - destruct (Providers_composition Samples.env_with_key "page")
      as (_ & _ & Hset & _).
    apply (Hset "pk_test_sample"); [reflexivity | discriminate].
  - destruct (Providers_composition Samples.env_without_key "page")
      as (_ & Hunset & _).
    apply Hunset. left. reflexivity.
Defined.

End FrontendFacts.
(** * Properties of the loader *)

Module LoaderFacts.
Import JS Prisma Backend Loaders BackendFacts.
Local Open Scope async_scope.

(** Narrowing the rows by a weaker test first does not change the first
    row that passes the stronger one. *)
Lemma find_filter {A} (p q : A -> bool) (l : list A) :
  (forall x, p x = true -> q x = true) ->
  find p (List.filter q l) = find p l.
Proof.
  intros Hpq. induction l as [|x l IH]; simpl; [reflexivity|].
  destruct (q x) eqn:Hq; simpl.
  - by rewrite IH.
  - destruct (p x) eqn:Hp; [|exact IH].
    apply Hpq in Hp. congruence.
Qed.

Lemma requested_id (ids : list Z) (k : Z) (u : User) :
  In k ids -> (Prisma.id u =? k) = true ->
  existsb (Z.eqb (Prisma.id u)) ids = true.
Proof.
  intros Hin Hk. apply existsb_exists. by exists k.
Qed.

(** The world after the single query of a batch. *)
Lemma findMany_run (client : PrismaClient) (ids : list Z) (w : World) :
  forallb int4 ids = true ->
  findMany client ids w =
  (Fulfilled (List.filter (fun u => existsb (Z.eqb (Prisma.id u)) ids) (users w)),
   {| users := users w;
      trace := trace w ++ [(pool_for client ReadOp, FindMany ids)] |}).
Proof. intros Hfit. unfold findMany, bind, issue. by rewrite Hfit. Qed.

(** The batch in terms of the table: each key is looked up among all the
    rows. *)
Lemma userLoader_batch_run (client : PrismaClient) (ids : list Z) (w : World) :
  forallb int4 ids = true ->
  userLoader_batch client ids w =
  (Fulfilled (map (fun k => find (fun u => Prisma.id u =? k) (users w)) ids),
   {| users := users w;
      trace := trace w ++ [(pool_for client ReadOp, FindMany ids)] |}).
Proof.
  intros Hfit. unfold userLoader_batch, bind. rewrite (findMany_run _ _ _ Hfit).
  unfold ret. simpl.
  f_equal. f_equal. apply map_ext_in. intros k Hk.
  apply find_filter. intros u Hu. by apply (requested_id ids k u).
Qed.

(** One key that does not fit the column: the batch fails as a whole. *)
Lemma userLoader_batch_far (client : PrismaClient) (ids : list Z) (w : World) :
  forallb int4 ids = false ->
  (userLoader_batch client ids w).1 = Rejected (ValueOutOfRange "findMany").
Proof.
  intros Hfar. unfold userLoader_batch, findMany, bind, issue. by rewrite Hfar.
Qed.

(** One query per key, in terms of the table. *)
Lemma one_query_per_key_run (client : PrismaClient) (ids : list Z) (w : World) :
  forallb int4 ids = true ->
  one_query_per_key client ids w =
  (Fulfilled (map (fun k => find (fun u => Prisma.id u =? k) (users w)) ids),
   {| users := users w;
      trace := trace w ++ map (fun k => (pool_for client ReadOp, FindUnique k)) ids |}).
Proof.
  revert w. induction ids as [|k ids IH]; intros w Hfit.
  - simpl. unfold ret. rewrite app_nil_r. by destruct w.
  - simpl in Hfit. apply andb_true_iff in Hfit as [Hk Hfit].
    change (one_query_per_key client (k :: ids) w)
      with (bind (findUnique client (Some k))
              (fun row => bind (one_query_per_key client ids)
                            (fun rows => ret (row :: rows))) w).
    unfold bind at 1. rewrite (findUnique_run _ k w Hk).
    unfold bind at 1. rewrite (IH _ Hfit). unfold ret, after_lookup. simpl.
    by rewrite <- app_assoc.
Qed.

(** *** What the batch function guarantees *)

(** X1.  For keys within the signed 32-bit range of the [id] column, the
    batch function answers a list of keys with one [findMany] and leaves
    the table alone; the answer has one entry per key, in the order of
    the keys: the entry of a key is a row of the table with that id, or
    null exactly when the table has no row with that id.  One key outside
    that range and the whole batch is rejected. *)
Theorem userLoader_batch_contract (client : PrismaClient) (ids : list Z) (w : World) :
  (forallb int4 ids = true ->
   exists rows,
     userLoader_batch client ids w
     = (Fulfilled rows,
        {| users := users w;
           trace := trace w ++ [(pool_for client ReadOp, FindMany ids)] |})
     /\ List.length rows = List.length ids
     /\ forall (i : nat) (k : Z), ids !! i = Some k ->
          exists entry, rows !! i = Some entry
            /\ (forall u, entry = Some u -> u ∈ users w /\ Prisma.id u = k)
            /\ (entry = None -> forall u, u ∈ users w -> Prisma.id u <> k))
  /\ (forallb int4 ids = false ->
      exists e, (userLoader_batch client ids w).1 = Rejected e).
Proof.
  split; [|intros Hfar; eexists; by apply userLoader_batch_far].
  intros Hfit.
  exists (map (fun k => find (fun u => Prisma.id u =? k) (users w)) ids).
  split; [by apply userLoader_batch_run|].
  split; [apply length_map|].
  intros i k Hk. exists (find (fun u => Prisma.id u =? k) (users w)).
  split.
  - change (map ?f ids) with (f <$> ids). by rewrite list_lookup_fmap, Hk.
  - split.
    + intros u Hu. apply find_some in Hu as [Hin Hid].
      split; [by apply list_elem_of_In | by apply Z.eqb_eq].
    + intros Hnone u Hin Hid.
      apply list_elem_of_In in Hin.
      pose proof (find_none _ _ Hnone u Hin) as Hne. simpl in Hne.
      apply Z.eqb_neq in Hne. contradiction.
Qed.

Lemma userLoader_batch_contract_witness :
  (exists rows entry,
     userLoader_batch Prisma.prisma [9; 8; 7] Fixtures.two_users
     = (Fulfilled rows,
        {| users := [Samples.alice; Fixtures.bob];
           trace := [(Replica, FindMany [9; 8; 7])] |})
     /\ rows !! 2%nat = Some entry
     /\ (forall u, entry = Some u ->
           u ∈ users Fixtures.two_users /\ Prisma.id u = 7))
  /\ exists e,
       (userLoader_batch Prisma.prisma [7; 2147483648] Fixtures.two_users).1
       = Rejected e.
Proof.
  split.
  - destruct (userLoader_batch_contract Prisma.prisma [9; 8; 7] Fixtures.two_users)
      as [Hfit _].
    destruct (Hfit eq_refl) as (rows & Hrun & _ & Hentries).
    destruct (Hentries 2%nat 7 eq_refl) as (entry & Hentry & Hsome & _).
    by exists rows, entry.
  - destruct (userLoader_batch_contract Prisma.prisma [7; 2147483648] Fixtures.two_users)
      as [_ Hfar].
    apply Hfar. reflexivity.
Defined.

(** X2.  For keys within the range of the [id] column, the batch function
    returns what one [findUnique] per key would return, with one query in
    the trace instead of one per key; neither changes the table. *)
Theorem userLoader_batch_one_query (client : PrismaClient) (ids : list Z) (w : World) :
  forallb int4 ids = true ->
  (userLoader_batch client ids w).1 = (one_query_per_key client ids w).1
  /\ users (userLoader_batch client ids w).2 = users w
  /\ users (one_query_per_key client ids w).2 = users w
  /\ List.length (trace (userLoader_batch client ids w).2) = (List.length (trace w) + 1)%nat
  /\ List.length (trace (one_query_per_key client ids w).2)
     = (List.length (trace w) + List.length ids)%nat.
Proof.
  intros Hfit.
  rewrite (userLoader_batch_run _ _ _ Hfit), (one_query_per_key_run _ _ _ Hfit). simpl.
  repeat split; rewrite length_app; [reflexivity|].
  by rewrite length_map.
Qed.

Lemma userLoader_batch_one_query_witness :
  (userLoader_batch Prisma.prisma [9; 8; 7] Fixtures.two_users).1
  = (one_query_per_key Prisma.prisma [9; 8; 7] Fixtures.two_users).1
  /\ List.length (trace (one_query_per_key Prisma.prisma [9; 8; 7] Fixtures.two_users).2)
     = 3%nat.
Proof.
  destruct (userLoader_batch_one_query Prisma.prisma [9; 8; 7] Fixtures.two_users eq_refl)
    as (Hsame & _ & _ & _ & Hmany).
  split; [exact Hsame | exact Hmany].
Defined.

(** X3.  On a table with unique ids, and for keys within the range of the
    [id] column, every requested key that has a row gets that very row at
    its position, also when the key is requested more than once. *)
Theorem userLoader_batch_unique (client : PrismaClient) (ids : list Z) (w : World)
    (i : nat) (k : Z) (u : User) :
  forallb int4 ids = true ->
  NoDup (Prisma.id <$> users w) ->
  ids !! i = Some k ->
  u ∈ users w ->
  Prisma.id u = k ->
  exists rows w',
    userLoader_batch client ids w = (Fulfilled rows, w')
    /\ rows !! i = Some (Some u).
Proof.
  intros Hfit Hnd Hk Hin Hid. rewrite (userLoader_batch_run _ _ _ Hfit).
  eexists _, _. split; [reflexivity|].
  change (map ?f ids) with (f <$> ids). rewrite list_lookup_fmap, Hk. simpl.
  by rewrite (find_row (users w) k u Hnd Hin Hid).
Qed.

Lemma userLoader_batch_unique_witness :
  exists rows w',
    userLoader_batch Prisma.prisma [9; 7; 9] Fixtures.two_users = (Fulfilled rows, w')
    /\ rows !! 2%nat = Some (Some Fixtures.bob).
Proof.
  apply (userLoader_batch_unique Prisma.prisma [9; 7; 9] Fixtures.two_users
           2%nat 9 Fixtures.bob).
  - reflexivity.
  - apply NoDup_cons. split.
    + intros Hin. apply list_elem_of_singleton in Hin. discriminate Hin.
    + apply NoDup_singleton.
  - reflexivity.
  - apply list_elem_of_further, list_elem_of_here.
  - reflexivity.
Defined.

(** X4.  For an authenticated context whose [dbUserId] is within the
    range of the [id] column, loading that key through the loader and
    asking the protected [user] query give the same row: the query
    resolves to the entry of the batch, and is rejected with
    ["User not found"] exactly when the entry is null. *)
Theorem userLoader_agrees_with_user `{AuthGuard} (ctx : Context) (key : Z) (w : World) :
  authenticated ctx = true ->
  ctx_dbUserId ctx = Some key ->
  int4 key = true ->
  exists entry w',
    userLoader_batch (prisma ctx) [key] w = (Fulfilled [entry], w')
    /\ (UserResolver.user ctx w).1
       = match entry with
         | Some u => Fulfilled u
         | None => Rejected (GraphQLError "User not found")
         end.
Proof.
  intros Hauth Hkey Hfit.
  rewrite userLoader_batch_run, (user_run ctx key w Hauth Hkey Hfit).
  - simpl. eexists _, _. split; [reflexivity|].
    by destruct (find _ (users w)).
  - simpl. by rewrite Hfit.
Qed.

Lemma userLoader_agrees_with_user_witness :
  exists w',
    userLoader_batch Prisma.prisma [7] Fixtures.two_users
    = (Fulfilled [Some Samples.alice], w')
    /\ (@UserResolver.user Samples.guard Samples.ctx Fixtures.two_users).1
       = Fulfilled Samples.alice.
Proof.
  destruct (@userLoader_agrees_with_user Samples.guard Samples.ctx 7 Fixtures.two_users
              eq_refl eq_refl eq_refl) as (entry & w' & Hbatch & Huser).
  exists w'. injection Hbatch as <- <-. split; [reflexivity | exact Huser].
Defined.

(** *** What the protected query never does *)

(** X5.  Whatever the context, a result of the [user] query is a row of
    the table whose id is the [dbUserId] of that context, handed out only
    to a context the guard accepts and after one lookup of that id. *)
Theorem user_returns_own_row `{AuthGuard} (ctx : Context) (w w' : World) (u : User) :
  UserResolver.user ctx w = (Fulfilled u, w') ->
  authenticated ctx = true
  /\ ctx_dbUserId ctx = Some (Prisma.id u)
  /\ u ∈ users w
  /\ w' = after_lookup (prisma ctx) (Prisma.id u) w.
Proof.
  unfold UserResolver.user, authRequired.
  destruct (authenticated ctx) eqn:Hauth; [|discriminate].
  destruct (ctx_dbUserId ctx) as [key|] eqn:Hkey.
  - destruct (int4 key) eqn:Hfit.
    + rewrite (user_method_run ctx key w Hkey Hfit).
      destruct (find _ (users w)) as [row|] eqn:Hfind; [|discriminate].
      intros [= -> <-]. apply find_some in Hfind as [Hin Hid].
      apply Z.eqb_eq in Hid. subst key.
      repeat split. by apply list_elem_of_In.
    + rewrite (user_method_far ctx key w Hkey Hfit). discriminate.
  - rewrite (user_method_no_key ctx w Hkey). discriminate.
Qed.

Lemma user_returns_own_row_witness :
  ctx_dbUserId Samples.ctx = Some (Prisma.id Samples.alice)
  /\ Samples.alice ∈ users Fixtures.two_users.
Proof.
  destruct (@user_returns_own_row Samples.guard Samples.ctx Fixtures.two_users
              (after_lookup Prisma.prisma 7 Fixtures.two_users) Samples.alice eq_refl)
    as (_ & Hkey & Hin & _).
  by split.
Defined.

(** X6.  The [user] query never changes the table and never issues a
    write: whatever the context, the guard and the table, it adds at most
    one operation to the trace, and that operation is a read. *)
Theorem user_query_reads_only `{AuthGuard} (ctx : Context) (w : World) :
  users (UserResolver.user ctx w).2 = users w
  /\ exists new,
       trace (UserResolver.user ctx w).2 = trace w ++ new
       /\ (List.length new <= 1)%nat
       /\ Forall (fun ev => op_type ev.2 = ReadOp) new.
Proof.
  destruct (user_trace ctx w) as [Husers [Hsame | [key Hone]]].
  - split; [exact Husers|]. exists []. rewrite app_nil_r.
    split; [exact Hsame|]. split; [simpl; lia | apply Forall_nil_2].
  - split; [exact Husers|]. exists [(pool_for (prisma ctx) ReadOp, FindUnique key)].
    split; [exact Hone|]. split; [done | by apply Forall_singleton].
Qed.

End LoaderFacts.
(** * The first matcher pattern as a scan *)

Module ScanFacts.
Import JS RegExp RegExpFacts Frontend FrontendFacts Scan.

Lemma lit_app (p q s : string) :
  lit (String.append p q) s
  = match lit p s with Some s1 => lit q s1 | None => None end.
Proof.
  revert s. induction p as [|a p IH]; intros s; [reflexivity|].
  rewrite append_cons. simpl. destruct s as [|b s]; [reflexivity|].
  destruct (Ascii.eqb a b); [apply IH | reflexivity].
Qed.

Lemma starts_app (p q s : string) :
  starts (String.append p q) s
  = match lit p s with Some s1 => starts q s1 | None => false end.
Proof. unfold starts. rewrite lit_app. by destruct (lit p s). Qed.

(** *** The alternatives of the extension group, one by one *)

Lemma run_Alt (a b : re) (s : string) (k : string -> bool) :
  run (Alt a b) s k = run a s k || run b s k.
Proof. reflexivity. Qed.

Lemma run_Lit_any (p s : string) : run (Lit p) s (fun _ => true) = starts p s.
Proof. reflexivity. Qed.

Lemma run_Lit_Opt_any (p : string) (r : re) (s : string) :
  run (Seq (Lit p) (Opt r)) s (fun _ => true) = starts p s.
Proof.
  unfold starts. simpl. destruct (lit p s); [apply orb_true_r | reflexivity].
Qed.

Lemma run_js (s : string) :
  run (Seq (Lit "js") (NegAhead (Lit "on"))) s (fun _ => true)
  = starts "js" s && negb (starts "json" s).
Proof.
  change "json" with (String.append "js" "on"). rewrite starts_app.
  change (run (Seq (Lit "js") (NegAhead (Lit "on"))) s (fun _ => true))
    with (match lit "js" s with
          | Some s1 => negb (starts "on" s1) && true
          | None => false
          end).
  unfold starts at 2. destruct (lit "js" s); [apply andb_true_r | reflexivity].
Qed.

Lemma run_jpeg (s : string) :
  run (Seq (Lit "jp") (Seq (Opt (Lit "e")) (Lit "g"))) s (fun _ => true)
  = starts "jpeg" s || starts "jpg" s.
Proof.
  change "jpeg" with (String.append "jp" "eg").
  change "jpg" with (String.append "jp" "g").
  rewrite !starts_app.
  change (run (Seq (Lit "jp") (Seq (Opt (Lit "e")) (Lit "g"))) s (fun _ => true))
    with (match lit "jp" s with
          | Some s1 =>
              match lit "e" s1 with Some s2 => starts "g" s2 | None => false end
              || starts "g" s1
          | None => false
          end).
  destruct (lit "jp" s) as [s1|]; [|reflexivity].
  change "eg" with (String.append "e" "g"). by rewrite starts_app.
Qed.

Lemma run_extensions (s : string) :
  run extensions s (fun _ => true) = extension_at s.
Proof.
  unfold extensions, extension_at.
  rewrite !run_Alt, !run_Lit_Opt_any, run_js, run_jpeg.
  reflexivity.
Qed.

(** A dot and an extension at the head of the input. *)
Lemma run_dot_extension (a : ascii) (s : string) :
  run (Seq (Lit ".") (NonCapture extensions)) (String a s) (fun _ => true)
  = Ascii.eqb a "." && extension_at s.
Proof.
  rewrite <- run_extensions.
  change (run (Seq (Lit ".") (NonCapture extensions)) (String a s) (fun _ => true))
    with (match (if Ascii.eqb "." a then Some s else None) with
          | Some s' => run extensions s' (fun _ => true)
          | None => false
          end).
  rewrite (Ascii.eqb_sym "." a).
  by destruct (Ascii.eqb a ".").
Qed.

(** The star of the lookahead tries every position of a path. *)
Lemma star_scans (s : string) :
  all_in (Except "?") s = true ->
  star (Except "?") s
    (fun s' => run (Seq (Lit ".") (NonCapture extensions)) s' (fun _ => true))
  = static_dot s.
Proof.
  induction s as [|a s IH]; [reflexivity|].
  intros Hall.
  change (cls_mem (Except "?") a && all_in (Except "?") s = true) in Hall.
  apply andb_true_iff in Hall as [Ha Hall].
  change (star (Except "?") (String a s) ?k)
    with ((cls_mem (Except "?") a && star (Except "?") s k) || k (String a s)).
  cbv beta. rewrite run_dot_extension, (IH Hall), Ha.
  apply orb_comm.
Qed.

Lemma static_dot_append (a b : string) :
  static_dot b = true -> static_dot (String.append a b) = true.
Proof.
  intros Hb. induction a as [|x a IH]; [exact Hb|].
  rewrite append_cons. simpl. rewrite IH. apply orb_true_r.
Qed.

Lemma dotless_static_dot (s : string) :
  all_in (Except ".") s = true -> static_dot s = false.
Proof.
  induction s as [|a s IH]; [reflexivity|].
  simpl. intros H. apply andb_true_iff in H as [Ha H].
  rewrite (IH H). apply negb_true_iff in Ha. by rewrite Ha.
Qed.

Lemma static_dot_slash (s : string) : static_dot (String "/" s) = static_dot s.
Proof. reflexivity. Qed.

(** The first pattern on a URL path: no [_next] at the head and no dot
    followed by an extension anywhere. *)
Lemma pages_scan (s : string) :
  path_chars s = true ->
  test matcher_pages (String "/" s) = negb (starts "_next" s) && negb (static_dot s).
Proof.
  intros Hs. rewrite test_matcher_pages, run_skipped.
  rewrite (star_scans s (path_chars_no_query s Hs)).
  rewrite (star_dot_to_end s (path_chars_no_newline s Hs)).
  rewrite andb_true_r, negb_orb. reflexivity.
Qed.

Lemma pathname_slash (path : string) :
  pathname path = true -> exists s, path = String "/" s /\ path_chars s = true.
Proof.
  destruct path as [|a s]; [discriminate|].
  unfold pathname. destruct (Ascii.eqb_spec a "/") as [->|Hne].
  - intros Hs. by exists s.
  - intros H. exfalso.
    destruct a as [[] [] [] [] [] [] [] []]; try discriminate H. by apply Hne.
Qed.

(** Each listed extension is accepted where it stands, whatever follows
    it; [js] unless [on] follows. *)
Lemma listed_extension_at (ext rest : string) :
  In ext static_extensions ->
  (ext = "js" -> starts "on" rest = false) ->
  extension_at (String.append ext rest) = true.
Proof.
  unfold static_extensions. intros Hin Hjs.
  destruct Hin as [<- | Hin]; [reflexivity|].
  destruct Hin as [<- | Hin]; [reflexivity|].
  destruct Hin as [<- | Hin].
  { unfold extension_at.
    change (starts "htm" (String.append "js" rest)) with false.
    change (starts "css" (String.append "js" rest)) with false.
    change (starts "js" (String.append "js" rest)) with true.
    change (starts "json" (String.append "js" rest)) with (starts "on" rest).
    by rewrite (Hjs eq_refl). }
  repeat (destruct Hin as [<- | Hin]; [reflexivity|]).
  destruct Hin.
Qed.

(** *** The compiled entries *)

Lemma star_all (c : cls) (s : string) (k : string -> bool) :
  all_in c s = true -> k EmptyString = true -> star c s k = true.
Proof.
  intros Hall Hk. induction s as [|a s IH]; [exact Hk|].
  simpl in *. apply andb_true_iff in Hall as [Ha Hall].
  by rewrite Ha, (IH Hall).
Qed.

Lemma all_in_lit (c : cls) (p s rest : string) :
  lit p s = Some rest -> all_in c s = true -> all_in c rest = true.
Proof.
  intros Hlit. rewrite (lit_Some p s rest Hlit), all_in_append.
  intros H. by apply andb_true_iff in H as [_ H].
Qed.

(** An entry that begins with a slash fails on anything else. *)
Lemma run_slash_other (x : re) (a : ascii) (s : string) (k : string -> bool) :
  a <> "/"%char -> run (Seq (Lit "/") x) (String a s) k = false.
Proof.
  intros Hne.
  change (run (Seq (Lit "/") x) (String a s) k)
    with (match (if Ascii.eqb "/" a then Some s else None) with
          | Some s' => run x s' k
          | None => false
          end).
  destruct (Ascii.eqb_spec "/" a); [congruence | reflexivity].
Qed.

(** After an entry that ends in [.*], what the compiled expression
    allows behind it never decides. *)
Lemma pages_entry_tail (q : string) :
  all_in Dot q = true ->
  run matcher_pages q
    (fun s => run (Seq (Opt (Group (Lit ".json"))) (Opt (AnyOf "/#?"))) s at_end)
  = test matcher_pages q.
Proof.
  destruct q as [|a s]; [reflexivity|].
  intros Hall. change (cls_mem Dot a && all_in Dot s = true) in Hall.
  apply andb_true_iff in Hall as [_ Hall].
  destruct (Ascii.eqb_spec a "/") as [->|Hne].
  - rewrite test_matcher_pages.
    change (run matcher_pages (String "/" s) ?k)
      with (negb (run skipped s (fun _ => true)) && star Dot s k).
    by rewrite (star_all Dot s _ Hall eq_refl), (star_all Dot s at_end Hall eq_refl).
  - unfold test, matcher_pages. by rewrite !run_slash_other.
Qed.

Lemma api_entry_tail (q : string) :
  all_in Dot q = true ->
  run matcher_api q
    (fun s => run (Seq (Opt (Group (Lit ".json"))) (Opt (AnyOf "/#?"))) s at_end)
  = test matcher_api q.
Proof.
  destruct q as [|a s]; [reflexivity|].
  intros Hall. change (cls_mem Dot a && all_in Dot s = true) in Hall.
  apply andb_true_iff in Hall as [_ Hall].
  destruct (Ascii.eqb_spec a "/") as [->|Hne].
  - rewrite test_matcher_api.
    change (run matcher_api (String "/" s) ?k)
      with (match lit "api" s with Some s' => star Dot s' k | None => false end
            || match lit "trpc" s with Some s' => star Dot s' k | None => false end).
    destruct (lit "api" s) as [s1|] eqn:H1; destruct (lit "trpc" s) as [s2|] eqn:H2;
      repeat match goal with
        | Hl : lit _ s = Some ?x |- _ =>
            pose proof (all_in_lit Dot _ s x Hl Hall); clear Hl
        end;
      repeat match goal with
        | Hx : all_in Dot ?x = true |- context [star Dot ?x ?k] =>
            rewrite (star_all Dot x k Hx eq_refl)
        end;
      reflexivity.
  - unfold test, matcher_api. by rewrite !run_slash_other.
Qed.

(** The segment after [/_next/data/] is taken whole. *)
Lemma star_to_slash (s : string) (k : string -> bool) :
  k EmptyString = false ->
  (forall a q, a <> "/"%char -> k (String a q) = false) ->
  star (Except "/") s k = k (skip_segment s).
Proof.
  intros Hnil Hother. induction s as [|a s IH]; [reflexivity|].
  change (star (Except "/") (String a s) k)
    with ((negb (Ascii.eqb a "/") && star (Except "/") s k) || k (String a s)).
  simpl skip_segment. destruct (Ascii.eqb_spec a "/") as [->|Hne]; [reflexivity|].
  by rewrite IH, (Hother a s Hne), orb_false_r.
Qed.

(** A compiled entry tries the entry on the path and, for the request of
    a page's data, on the path of the page. *)
Lemma compiled_test (r x : re) (s : string) :
  r = Seq (Lit "/") x ->
  test (compiled r) (String "/" s)
  = match data_route (String "/" s) with
    | Some q =>
        run r q (fun s => run (Seq (Opt (Group (Lit ".json"))) (Opt (AnyOf "/#?"))) s at_end)
    | None => false
    end
    || run r (String "/" s)
         (fun s => run (Seq (Opt (Group (Lit ".json"))) (Opt (AnyOf "/#?"))) s at_end).
Proof.
  intros ->.
  set (tail := fun s => run (Seq (Opt (Group (Lit ".json"))) (Opt (AnyOf "/#?"))) s at_end).
  change (test (compiled (Seq (Lit "/") x)) (String "/" s))
    with (match lit "_next/data/" s with
          | Some s1 => run (Plus (Except "/")) s1 (fun q => run (Seq (Lit "/") x) q tail)
          | None => false
          end
          || run (Seq (Lit "/") x) (String "/" s) tail).
  change (data_route (String "/" s))
    with (match lit "_next/data/" s with
          | Some (String a s') =>
              if Ascii.eqb a "/" then None else Some (skip_segment s')
          | _ => None
          end).
  f_equal.
  destruct (lit "_next/data/" s) as [[|a s']|]; [reflexivity| |reflexivity].
  change (run (Plus (Except "/")) (String a s') ?k)
    with (negb (Ascii.eqb a "/") && star (Except "/") s' k).
  rewrite star_to_slash.
  - by destruct (Ascii.eqb a "/").
  - reflexivity.
  - intros b q Hb. by apply run_slash_other.
Qed.

(** *** The path of the page *)

Lemma path_chars_skip (s : string) :
  path_chars s = true ->
  skip_segment s = EmptyString \/ pathname (skip_segment s) = true.
Proof.
  induction s as [|a s IH]; [by left|].
  intros Hs. simpl in Hs. simpl skip_segment.
  destruct (Ascii.eqb_spec a "/") as [->|Hne].
  - right. simpl. by apply andb_true_iff in Hs as [_ Hs].
  - apply IH. by apply andb_true_iff in Hs as [_ Hs].
Qed.

Lemma data_route_page (s q : string) :
  path_chars s = true ->
  data_route (String "/" s) = Some q ->
  (q = EmptyString \/ pathname q = true)
  /\ test matcher_pages (String "/" s) = false
  /\ test matcher_api (String "/" s) = false
  /\ next_internal (String "/" s) = true.
Proof.
  intros Hs.
  change (data_route (String "/" s))
    with (match lit "_next/data/" s with
          | Some (String a s') =>
              if Ascii.eqb a "/" then None else Some (skip_segment s')
          | _ => None
          end).
  destruct (lit "_next/data/" s) as [[|a s']|] eqn:Hlit; try discriminate.
  destruct (Ascii.eqb a "/"); [discriminate|]. intros [= <-].
  pose proof (path_chars_lit _ _ _ Hlit Hs) as Hrest.
  simpl in Hrest. apply andb_true_iff in Hrest as [_ Hrest].
  split; [by apply path_chars_skip|].
  apply lit_Some in Hlit. subst s. by repeat split.
Qed.

Lemma page_path_cases (path : string) :
  pathname path = true ->
  (data_route path = None /\ page_path path = path)
  \/ (next_internal path = true
      /\ test matcher_pages path = false
      /\ test matcher_api path = false
      /\ (page_path path = EmptyString \/ pathname (page_path path) = true)).
Proof.
  intros Hpath. destruct (pathname_slash path Hpath) as (s & -> & Hs).
  unfold page_path. destruct (data_route (String "/" s)) as [q|] eqn:Hroute; [|by left].
  right. destruct (data_route_page s q Hs Hroute) as (Hq & Hpages & Hapi & Hnext).
  by repeat split.
Qed.

Lemma page_of_page (path : string) :
  next_internal path = false -> page_path path = path.
Proof.
  intros Hnext. unfold page_path, data_route.
  change "/_next/data/" with (String.append "/_next" "/data/").
  rewrite lit_app. unfold next_internal in Hnext.
  by destruct (lit "/_next" path).
Qed.

(** The proxy in terms of the two entries, tried on the path of the
    page. *)
Lemma proxy_runs_page (path : string) :
  pathname path = true ->
  proxy_runs path
  = test matcher_pages (page_path path) || test matcher_api (page_path path).
Proof.
  intros Hpath. destruct (pathname_slash path Hpath) as (s & -> & Hs).
  unfold proxy_runs, matcher. simpl existsb. rewrite orb_false_r.
  rewrite (compiled_test matcher_pages _ s eq_refl).
  rewrite (compiled_test matcher_api _ s eq_refl).
  pose proof (path_chars_no_newline s Hs) as Hline.
  rewrite (pages_entry_tail (String "/" s)), (api_entry_tail (String "/" s)) by exact Hline.
  unfold page_path.
  destruct (data_route (String "/" s)) as [q|] eqn:Hroute; [|reflexivity].
  destruct (data_route_page s q Hs Hroute) as (Hq & -> & -> & _).
  rewrite !orb_false_r.
  destruct Hq as [-> | Hq]; [reflexivity|].
  destruct (pathname_slash q Hq) as (t & -> & Ht).
  pose proof (path_chars_no_newline t Ht) as Htline.
  by rewrite (pages_entry_tail (String "/" t)), (api_entry_tail (String "/" t)).
Qed.

(** *** The claim about the matcher *)

(** C8, as stated, fails on three kinds of path: one with a later segment
    that starts with _next, a static asset under /api, and the request of
    a page's data, whose first segment is _next.  The proxy runs on all
    three. *)
Lemma matcher_counterexample :
  (pathname "/docs/_next/data" = true
   /\ segment_starts "_next" "/docs/_next/data" = true
   /\ proxy_runs "/docs/_next/data" = true)
  /\ (pathname "/api/export.csv" = true
      /\ static_asset "/api/export.csv" = true
      /\ proxy_runs "/api/export.csv" = true)
  /\ (pathname "/_next/data/build123/dashboard.json" = true
      /\ next_internal "/_next/data/build123/dashboard.json" = true
      /\ api_route "/_next/data/build123/dashboard.json" = false
      /\ proxy_runs "/_next/data/build123/dashboard.json" = true).
Proof. by repeat split. Qed.

(** C8, amended.  For every request path, the proxy runs on it if and only
    if an entry of the configured matcher, as Next.js compiles it,
    matches it; a compiled entry is tried on the path of the page, that
    is, with a leading /_next/data/<id> set aside where there is one.  A
    path of a page whose first segment starts with _next, or whose final
    segment ends in one of the listed static-asset extensions, is
    excluded unless it begins with /api or /trpc; a path beginning with
    /api or /trpc is always included; and json is no such extension: a
    page path without any other dot that ends in .json is included. *)
Theorem matcher_selects_paths (path : string) :
  pathname path = true ->
  (proxy_runs path = true <-> exists r, In r matcher /\ test (compiled r) path = true)
  /\ proxy_runs path
     = test matcher_pages (page_path path) || test matcher_api (page_path path)
  /\ (next_internal (page_path path) = true \/ static_asset (page_path path) = true ->
      test matcher_pages (page_path path) = false
      /\ proxy_runs path = api_route (page_path path))
  /\ (api_route (page_path path) = true -> proxy_runs path = true)
  /\ (api_route path = true -> page_path path = path /\ proxy_runs path = true)
  /\ (forall stem,
        page_path path = String "/" (String.append stem ".json") ->
        all_in (Except ".") stem = true ->
        next_internal (page_path path) = false ->
        proxy_runs path = true).
Proof.
  intros Hpath.
  pose proof (proxy_runs_page path Hpath) as Hruns.
  assert (Hpage : page_path path = EmptyString \/ pathname (page_path path) = true).
  { destruct (page_path_cases path Hpath) as [[_ ->] | (_ & _ & _ & Hq)];
      [by right | exact Hq]. }
  split; [unfold proxy_runs; apply existsb_exists|].
  split; [exact Hruns|].
  split; [|split; [|split]].
  - intros Hskip. destruct Hpage as [Hempty | Hpage].
    + rewrite Hempty in Hskip. by destruct Hskip.
    + pose proof (matcher_pages_skips _ Hpage Hskip) as Hpages.
      split; [exact Hpages|].
      by rewrite Hruns, Hpages, (matcher_api_routes _ Hpage).
  - intros Hapi. destruct Hpage as [Hempty | Hpage].
    + by rewrite Hempty in Hapi.
    + by rewrite Hruns, (matcher_api_routes _ Hpage), Hapi, orb_true_r.
  - intros Hapi.
    destruct (page_path_cases path Hpath) as [[_ Hsame] | (_ & _ & Hno & _)].
    + split; [exact Hsame|].
      by rewrite Hruns, Hsame, (matcher_api_routes _ Hpath), Hapi, orb_true_r.
    + rewrite (matcher_api_routes _ Hpath) in Hno. congruence.
  - intros stem Hstem Hdots Hnext. rewrite Hruns, Hstem.
    destruct Hpage as [Hempty | Hpage]; [by rewrite Hstem in Hempty|].
    rewrite Hstem in Hpage, Hnext.
    rewrite (pages_scan (String.append stem ".json") Hpage).
    change (starts "_next" (String.append stem ".json"))
      with (next_internal (String "/" (String.append stem ".json"))).
    rewrite Hnext.
    assert (Hdot : static_dot (String.append stem ".json") = false).
    { clear Hstem Hpage Hnext Hruns. induction stem as [|a stem IH]; [reflexivity|].
      simpl in Hdots. apply andb_true_iff in Hdots as [Ha Hdots].
      rewrite append_cons. simpl. rewrite (IH Hdots).
      apply negb_true_iff in Ha. by rewrite Ha. }
    by rewrite Hdot.
Qed.

Lemma matcher_selects_paths_witness :
  proxy_runs "/assets/logo.svg" = false
  /\ proxy_runs "/_next/data/build123/assets/logo.svg" = false
  /\ proxy_runs "/_next/data/build123/dashboard.json" = true.
Proof.
  split; [|split].
  - destruct (matcher_selects_paths "/assets/logo.svg" eq_refl)
      as (_ & _ & Hskip & _).
    destruct Hskip as [_ Hruns]; [by right | by rewrite Hruns].
  - destruct (matcher_selects_paths "/_next/data/build123/assets/logo.svg" eq_refl)
      as (_ & _ & Hskip & _).
    destruct Hskip as [_ Hruns]; [by right | by rewrite Hruns].
  - destruct (matcher_selects_paths "/_next/data/build123/dashboard.json" eq_refl)
      as (_ & _ & _ & _ & _ & Hjson).
    by apply (Hjson "dashboard").
Defined.

(** *** What the matcher lets through and what it skips *)

(** X7.  On a URL path the first matcher entry matches exactly when the
    first segment does not start with _next and no dot anywhere in the
    path is directly followed by htm, css, js (unless on follows), jpg,
    jpeg, webp, png, gif, svg, ttf, woff, ico, csv, doc, xls, zip or
    webmanifest.  The proxy runs on a path exactly when the path of the
    page, the path without a leading /_next/data/<id>, begins with a
    slash and either begins with /api or /trpc or passes that test. *)
Theorem matcher_is_a_scan (path : string) :
  pathname path = true ->
  test matcher_pages path = negb (next_internal path) && negb (static_dot path)
  /\ proxy_runs path = path_passes (page_path path).
Proof.
  intros Hpath.
  assert (Hscan : forall q, pathname q = true ->
            test matcher_pages q = negb (next_internal q) && negb (static_dot q)).
  { intros q Hq. destruct (pathname_slash q Hq) as (s & -> & Hs).
    rewrite (pages_scan s Hs), static_dot_slash. reflexivity. }
  split; [by apply Hscan|].
  rewrite (proxy_runs_page path Hpath).
  assert (Hpage : page_path path = EmptyString \/ pathname (page_path path) = true).
  { destruct (page_path_cases path Hpath) as [[_ ->] | (_ & _ & _ & Hq)];
      [by right | exact Hq]. }
  destruct Hpage as [-> | Hpage]; [reflexivity|].
  rewrite (Hscan _ Hpage), (matcher_api_routes _ Hpage).
  destruct (pathname_slash _ Hpage) as (t & -> & _).
  unfold path_passes. change (starts "/" (String "/" t)) with true.
  rewrite andb_true_l. apply orb_comm.
Qed.

Lemma matcher_is_a_scan_witness :
  test matcher_pages "/reports/2024.csv.bak/index" = false
  /\ proxy_runs "/data/feed.json" = true
  /\ proxy_runs "/_next/data/b/api/users" = true.
Proof.
  split; [|split].
  - destruct (matcher_is_a_scan "/reports/2024.csv.bak/index" eq_refl) as [Hpages _].
    rewrite Hpages. reflexivity.
  - destruct (matcher_is_a_scan "/data/feed.json" eq_refl) as [_ Hruns].
    rewrite Hruns. reflexivity.
  - destruct (matcher_is_a_scan "/_next/data/b/api/users" eq_refl) as [_ Hruns].
    rewrite Hruns. reflexivity.
Defined.

(** X8.  The proxy runs on every URL path that has no dot in it and whose
    first segment does not start with _next. *)
Theorem dotless_pages_run (path : string) :
  pathname path = true ->
  all_in (Except ".") path = true ->
  next_internal path = false ->
  proxy_runs path = true.
Proof.
  intros Hpath Hdots Hnext.
  rewrite (proxy_runs_page path Hpath), (page_of_page path Hnext).
  destruct (pathname_slash path Hpath) as (s & -> & Hs).
  rewrite (pages_scan s Hs).
  change (starts "_next" s) with (next_internal (String "/" s)). rewrite Hnext.
  rewrite <- static_dot_slash, (dotless_static_dot _ Hdots). reflexivity.
Qed.

Lemma dotless_pages_run_witness : proxy_runs "/dashboard/settings" = true.
Proof. apply dotless_pages_run; reflexivity. Defined.

(** X9.  The extension test is not tied to the end of the path or to its
    final segment: a URL path outside /_next in which a dot is followed
    by a listed extension is skipped by the first entry whatever comes
    after the extension (for js: unless on comes after it), so the proxy
    runs on it only if it begins with /api or /trpc. *)
Theorem extension_anywhere_skips (pre ext rest : string) :
  In ext static_extensions ->
  (ext = "js" -> starts "on" rest = false) ->
  pathname (String "/" (String.append pre (String "." (String.append ext rest)))) = true ->
  next_internal
    (String "/" (String.append pre (String "." (String.append ext rest)))) = false ->
  test matcher_pages
    (String "/" (String.append pre (String "." (String.append ext rest)))) = false
  /\ proxy_runs (String "/" (String.append pre (String "." (String.append ext rest))))
     = api_route (String "/" (String.append pre (String "." (String.append ext rest)))).
Proof.
  intros Hext Hjs Hpath Hnext.
  set (s := String.append pre (String "." (String.append ext rest))) in *.
  assert (Hs : path_chars s = true) by exact Hpath.
  assert (Hdot : static_dot s = true).
  { apply static_dot_append.
    change (Ascii.eqb "." "." && extension_at (String.append ext rest)
            || static_dot (String.append ext rest) = true).
    by rewrite (listed_extension_at ext rest Hext Hjs). }
  assert (Hpages : test matcher_pages (String "/" s) = false).
  { by rewrite (pages_scan s Hs), Hdot, andb_false_r. }
  split; [exact Hpages|].
  rewrite (proxy_runs_page _ Hpath), (page_of_page _ Hnext).
  by rewrite Hpages, (matcher_api_routes (String "/" s) Hpath).
Qed.

Lemma extension_anywhere_skips_witness :
  proxy_runs "/files.zip/readme" = false.
Proof.
  destruct (extension_anywhere_skips "files" "zip" "/readme") as [_ Hruns].
  - unfold static_extensions. do 18 right. left. reflexivity.
  - discriminate.
  - reflexivity.
  - reflexivity.
  - exact Hruns.
Defined.

(** X10.  The two places that test the Clerk key agree: for every
    environment, either [Providers] renders [ClerkProvider] and the proxy
    is Clerk's middleware, or [Providers] renders [ApolloProvider] alone
    and the proxy lets every request through. *)
Theorem Providers_and_proxy_agree {Request Response A}
    `{ClerkNext Request Response} `{NextServer Response}
    (env : Env) (children : A) :
  (Providers env children = Elem ClerkProvider [Elem ApolloProvider [Slot children]]
   /\ proxy env = clerkMiddleware tt)
  \/ (Providers env children = Elem ApolloProvider [Slot children]
      /\ proxy env = (fun _ : Request => NextResponse_next tt)).
Proof.
  unfold Providers, proxy. destruct (truthy (clerkKey env)); [by left | by right].
Qed.

(** Runs of the matcher on concrete paths. *)
Example matcher_runs_on_page : proxy_runs "/dashboard/settings" = true.
Proof. reflexivity. Qed.

Example matcher_keeps_json : proxy_runs "/data/feed.json" = true.
Proof. reflexivity. Qed.

Example matcher_skips_next_static : proxy_runs "/_next/static/chunks/main.js" = false.
Proof. reflexivity. Qed.

Example matcher_runs_on_trpc : proxy_runs "/trpc/user.get" = true.
Proof. reflexivity. Qed.

Example matcher_runs_on_page_data : proxy_runs "/_next/data/b.css/page" = true.
Proof. reflexivity. Qed.

Example matcher_skips_bare_data_route : proxy_runs "/_next/data/build123" = false.
Proof. reflexivity. Qed.

End ScanFacts.
